(** * PL2303 user-space USB driver (index.js): bring-up and line configuration

    A shallow embedding of [src/index.js].  Numbers are the integers the
    driver is configured with ([Z]); a [Buffer] is a list of byte values;
    a promise chain is a term of the free monad [Js] over the calls the
    driver makes into the USB stack and the event emitter, run against an
    arbitrary deterministic environment. *)

From Stdlib Require Import ZArith List String Bool Lia.
From Stdlib Require Import Sorting.Permutation Sorting.Sorted.
Import ListNotations.
Local Open Scope Z_scope.

(** ** Array.prototype.sort with a comparator

    ECMAScript (2019 on) requires [sort] to be stable; for a consistent
    comparator the result is then determined.  It is embedded as the stable
    insertion sort: an element goes before the first element that does not
    compare strictly below it, so that equal elements keep the order they
    had in the input. *)

Section ArraySort.
Context {A : Type}.
Variable compareFn : A -> A -> Z.

Fixpoint insert (x : A) (l : list A) : list A :=
  match l with
  | [] => [x]
  | y :: l' => if compareFn x y <=? 0 then x :: y :: l' else y :: insert x l'
  end.

Fixpoint sort (l : list A) : list A :=
  match l with
  | [] => []
  | x :: l' => insert x (sort l')
  end.
End ArraySort.

(** ** The table of supported rates (index.js, lines 20-25) *)

Definition SupportedBaudrates : list Z :=
  [ 75; 150; 300; 600; 1200; 1800; 2400; 3600;
    4800; 7200; 9600; 14400; 19200; 28800; 38400;
    57600; 115200; 230400; 460800; 614400;
    921600; 1228800; 2457600; 3000000; 6000000 ].

(** [list[0]] of the table sorted by distance to [baud] (lines 59-60);
    [None] is JavaScript's [undefined], the value of [list[0]] on an empty
    array. *)
Definition newBaud (baud : Z) : option Z :=
  nth_error
    (sort (fun a b => Z.abs (a - baud) - Z.abs (b - baud))
          (SupportedBaudrates))
    0.

(** ** Values, errors and USB objects *)

Inductive Err : Type :=
| AssertionError
| RangeError
| TypeError
| TransportError (errno : Z).

(** The result of a synchronous call: a value, or a thrown exception. *)
Inductive JsResult (A : Type) : Type :=
| Return (a : A)
| Throw (e : Err).
Arguments Return {A} a.
Arguments Throw {A} e.

Definition Buffer : Type := list Z.

Inductive JsValue : Type :=
| VUndefined
| VNumber (n : Z)
| VString (s : string)
| VError (e : Err)
| VBuffer (b : Buffer).

Definition instanceofBuffer (v : JsValue) : bool :=
  match v with VBuffer _ => true | _ => false end.

Record Endpoint : Type := mkEndpoint {
  address : Z;
  transferType : Z;
  direction : string
}.

Record Interface : Type := mkInterface {
  interfaceNumber : Z;
  endpoints : list Endpoint
}.

Record DeviceDescriptor : Type := mkDescriptor {
  idVendor : Z;
  idProduct : Z;
  bDeviceClass : Z;
  bMaxPacketSize0 : Z
}.

(** A device handle of the usb module; [deviceAddress] tells two handles
    with equal descriptors apart. *)
Record Device : Type := mkDevice {
  deviceAddress : Z;
  deviceDescriptor : DeviceDescriptor;
  interfaces : list Interface
}.

(** libusb's transfer-type codes, [usb.LIBUSB_TRANSFER_TYPE_*]. *)
Definition LIBUSB_TRANSFER_TYPE_BULK : Z := 2.
Definition LIBUSB_TRANSFER_TYPE_INTERRUPT : Z := 3.

(** The last argument of [device.controlTransfer]: a length to read, or the
    buffer to write. *)
Inductive DataOrLength : Type :=
| Length (n : Z)
| Data (b : Buffer).

Record ControlRequest : Type := mkReq {
  bmRequestType : Z;
  bRequest : Z;
  wValue : Z;
  wIndex : Z;
  dataOrLength : DataOrLength
}.

(** The synchronous calls the driver makes on objects it does not own. *)
Inductive Call : Type :=
| SetTimeout (d : Device) (ms : Z)
| Open (d : Device)
| Claim (i : Interface)
| OnEvent (e : Endpoint) (event : string) (forwardAs : string)
| StartPoll (e : Endpoint)
| Transfer (e : Endpoint) (data : JsValue)
| EmitEvent (event : string) (args : list JsValue).

(** ** Promise chains

    [Ctl d req k] is [device.controlTransfer] on [d], continuing with [k] in
    its completion callback; [Ext c k] is a synchronous call that may throw.
    A promise that is rejected and a callback that throws are the same
    constructor, [Fail]: [then] turns an exception of its callback into a
    rejection of the promise it returns.

    [Ctl] is a transfer issued and awaited in one piece.  Where the code
    that issues a transfer goes on before the transfer completes, the two
    halves are apart: [Issue d req k] is the call of [device.controlTransfer],
    after which [k] runs at once, and [Await d req k] is the wait for the
    completion of that transfer, continuing with [k] in its callback. *)

Inductive Js (A : Type) : Type :=
| Ret (a : A)
| Fail (e : Err)
| Ctl (d : Device) (req : ControlRequest) (k : Err + Buffer -> Js A)
| Ext (c : Call) (k : option Err -> Js A)
| Issue (d : Device) (req : ControlRequest) (k : Js A)
| Await (d : Device) (req : ControlRequest) (k : Err + Buffer -> Js A).
Arguments Ret {A} a.
Arguments Fail {A} e.
Arguments Ctl {A} d req k.
Arguments Ext {A} c k.
Arguments Issue {A} d req k.
Arguments Await {A} d req k.

Fixpoint then_ {A B : Type} (p : Js A) (f : A -> Js B) : Js B :=
  match p with
  | Ret a => f a
  | Fail e => Fail e
  | Ctl d req k => Ctl d req (fun r => then_ (k r) f)
  | Ext c k => Ext c (fun r => then_ (k r) f)
  | Issue d req k => Issue d req (then_ k f)
  | Await d req k => Await d req (fun r => then_ (k r) f)
  end.

Fixpoint catch_ {A : Type} (p : Js A) (h : Err -> Js A) : Js A :=
  match p with
  | Ret a => Ret a
  | Fail e => h e
  | Ctl d req k => Ctl d req (fun r => catch_ (k r) h)
  | Ext c k => Ext c (fun r => catch_ (k r) h)
  | Issue d req k => Issue d req (catch_ k h)
  | Await d req k => Await d req (fun r => catch_ (k r) h)
  end.

Notation "p >>= f" := (then_ p f) (at level 50, left associativity).
Notation "x <- p ;; q" := (then_ p (fun x => q))
  (at level 61, p at next level, right associativity).
Notation "p ;; q" := (then_ p (fun _ => q))
  (at level 61, right associativity).

Definition lift {A : Type} (r : JsResult A) : Js A :=
  match r with Return a => Ret a | Throw e => Fail e end.

Definition call (c : Call) : Js unit :=
  Ext c (fun r => match r with None => Ret tt | Some e => Fail e end).

Definition assert_ (cond : bool) : Js unit :=
  if cond then Ret tt else Fail AssertionError.

Definition emit (event : string) (args : list JsValue) : Js unit :=
  call (EmitEvent event args).

(** ** Buffer operations *)

(** [buf[i] = v] on a Buffer: the value is stored modulo 256, and a store
    past the end is ignored. *)
Fixpoint setIndex (buf : Buffer) (i : nat) (v : Z) : Buffer :=
  match buf, i with
  | [], _ => []
  | _ :: t, O => (v mod 256) :: t
  | h :: t, S i' => h :: setIndex t i' v
  end.

(** [buf.writeInt32LE(value, offset)]: throws when the value is no 32-bit
    signed integer or when fewer than four bytes follow the offset. *)
Definition writeInt32LE (buf : Buffer) (value offset : Z) : JsResult Buffer :=
  if (value <? - 0x80000000) || (0x7fffffff <? value) then Throw RangeError
  else if (offset <? 0) || (Z.of_nat (List.length buf) <? offset + 4) then Throw RangeError
  else
    let o := Z.to_nat offset in
    Return (setIndex (setIndex (setIndex (setIndex buf
              o value)
              (o + 1)%nat (Z.shiftr value 8))
              (o + 2)%nat (Z.shiftr value 16))
              (o + 3)%nat (Z.shiftr value 24)).

(** ** The vendor register protocol (lines 34-54) *)

Definition controlTransfer (device : Device)
    (requestType request value index : Z) (dataOrLength : DataOrLength)
  : Js Buffer :=
  Ctl device (mkReq requestType request value index dataOrLength)
    (fun r => match r with
              | inl err => Fail err
              | inr data => Ret data
              end).

Definition vendorRead (device : Device) (value index : Z) : Js (option Z) :=
  controlTransfer device 0xc0 0x01 value index (Length 1)
    >>= (fun buffer => Ret (nth_error buffer 0)).

Definition vendorWrite (device : Device) (value index : Z) : Js Buffer :=
  controlTransfer device 0x40 0x01 value index (Data []).

(** ** The baud-rate negotiator (lines 56-73) *)

(** Lines 61-72: the promise chain of [setBaudrate] for the selected rate.
    The block read from the device is changed in place and written back. *)
Definition setBaudrate_chain (device : Device) (rate : Z) : Js Buffer :=
  controlTransfer device 0xa1 0x21 0 0 (Length 7)
    >>= (fun data =>
           let parameters := data in
           parameters <- lift (writeInt32LE parameters rate 0) ;;
           let parameters := setIndex parameters 4 0 in
           let parameters := setIndex parameters 5 0 in
           let parameters := setIndex parameters 6 8 in
           controlTransfer device 0x21 0x20 0 0 (Data parameters))
    >>= (fun _ => vendorWrite device 0x0 0x0)
    >>= (fun _ => vendorWrite device 8 0)
    >>= (fun _ => vendorWrite device 9 0).

(** Lines 56-60, then the chain.  [list[0]] is [undefined] only for an
    empty table, which [SupportedBaudrates] is not: the [None] branch is
    never taken (lemma [newBaud_first_min]). *)
Definition setBaudrate (device : Device) (baud : Z) : Js Buffer :=
  assert_ (baud <=? 115200) ;;
  match newBaud baud with
  | Some rate => setBaudrate_chain device rate
  | None => Fail TypeError
  end.

(** ** The session (lines 14-18, 27-32, 75-141) *)

Definition findDevices (deviceList : list Device) (vid pid : Z) : list Device :=
  filter (fun device =>
            (idVendor (deviceDescriptor device) =? vid)
            && (idProduct (deviceDescriptor device) =? pid))
         deviceList.

(** [assert(eps.length === 1); return eps[0]]. *)
Definition findEp (iface : Interface) (type : Z) (dir : string)
  : JsResult Endpoint :=
  let eps := filter (fun e => (transferType e =? type)
                              && String.eqb (direction e) dir)
                    (endpoints iface) in
  match eps with
  | [e] => Return e
  | _ => Throw AssertionError
  end.

(** The constructor's options; [None] is a property that is not set. *)
Record Options : Type := mkOptions {
  port : option Z;
  baudRate : option Z
}.

(** [v || d] on an optional number: [undefined] and [0] give [d]. *)
Definition orDefault (v : option Z) (d : Z) : Z :=
  match v with
  | Some n => if n =? 0 then d else n
  | None => d
  end.

(** [l[i]]: [undefined] outside the array. *)
Definition index {A : Type} (l : list A) (i : Z) : option A :=
  if i <? 0 then None else nth_error l (Z.to_nat i).

Record UsbSerial : Type := mkUsbSerial {
  device : Device;
  iface : Interface;
  outEp : Endpoint
}.

(** Lines 112-126: the chain the constructor starts. *)
Definition bringUp (device : Device) (bitrate : Z) (inEp : Endpoint) : Js unit :=
  catch_
    (vendorRead device 0x8484 0
       >>= (fun _ => vendorWrite device 0x0404 0)
       >>= (fun _ => vendorRead device 0x8484 0)
       >>= (fun _ => vendorRead device 0x8383 0)
       >>= (fun _ => vendorRead device 0x8484 0)
       >>= (fun _ => vendorWrite device 0x0404 1)
       >>= (fun _ => vendorRead device 0x8484 0)
       >>= (fun _ => vendorRead device 0x8383 0)
       >>= (fun _ => vendorWrite device 0 1)
       >>= (fun _ => vendorWrite device 1 0)
       >>= (fun _ => vendorWrite device 2 0x44)
       >>= (fun _ => setBaudrate device bitrate)
       >>= (fun _ => call (StartPoll inEp))
       >>= (fun _ => emit "ready" []))
    (fun err => emit "error" [VError err]).

(** A chain whose first transfer has been issued and is awaited. *)
Definition awaiting {A : Type} (chain : Js A) : Js A :=
  match chain with
  | Ctl d req k => Await d req k
  | _ => chain
  end.

(** Creating a chain that begins with a control transfer issues that
    transfer: [new Promise] runs its executor at once (lines 35-36), and the
    executor calls [device.controlTransfer].  Everything after it is in
    callbacks, which run when the transfer has completed. *)
Definition create {A B : Type} (chain : Js A) (k : Js A -> Js B) : Js B :=
  match chain with
  | Ctl d req _ => Issue d req (k (awaiting chain))
  | _ => k chain
  end.

(** Lines 76-127.  [deviceList] is what [usb.getDeviceList()] returns.  The
    last statement creates the bring-up chain, which issues the first
    [vendorRead]; the constructor returns the session together with the
    chain that awaits it, and which the event loop runs after the
    constructor has returned. *)
Arguments awaiting : simpl never.
Arguments create : simpl never.

Definition UsbSerial_new (deviceList : list Device) (opts : Options)
  : Js (UsbSerial * Js unit) :=
  let port := orDefault (port opts) 0 in
  let bitrate := orDefault (baudRate opts) 9600 in
  let devices := findDevices deviceList 0x067b 0x2303 in
  assert_ (port <? Z.of_nat (List.length devices)) ;;
  match index devices port with
  | None => Fail TypeError
  | Some device =>
      let descriptor := deviceDescriptor device in
      assert_ (negb (bDeviceClass descriptor =? 0x02)) ;;
      assert_ (bMaxPacketSize0 descriptor =? 0x40) ;;
      call (SetTimeout device 100) ;;
      call (Open device) ;;
      assert_ (Nat.eqb (List.length (interfaces device)) 1) ;;
      match interfaces device with
      | [] => Fail TypeError
      | iface :: _ =>
          call (Claim iface) ;;
          intEp <- lift (findEp iface LIBUSB_TRANSFER_TYPE_INTERRUPT "in") ;;
          call (OnEvent intEp "data" "status") ;;
          call (OnEvent intEp "error" "error") ;;
          call (StartPoll intEp) ;;
          inEp <- lift (findEp iface LIBUSB_TRANSFER_TYPE_BULK "in") ;;
          call (OnEvent inEp "data" "data") ;;
          call (OnEvent inEp "error" "error") ;;
          outEp <- lift (findEp iface LIBUSB_TRANSFER_TYPE_BULK "out") ;;
          call (OnEvent outEp "error" "error") ;;
          create (bringUp device bitrate inEp)
            (fun chain => Ret (mkUsbSerial device iface outEp, chain))
      end
  end.

(** Lines 137-140. *)
Definition send (this : UsbSerial) (data : JsValue) : Js unit :=
  assert_ (instanceofBuffer data) ;;
  call (Transfer (outEp this) data).

(** ** Running a chain against the USB stack

    The environment is any deterministic machine: it answers a control
    transfer with an error or with data, and a synchronous call by letting
    it return or throw. *)

Inductive Event : Type :=
| EvIssue (d : Device) (req : ControlRequest)
| EvDone (r : Err + Buffer)
| EvCall (c : Call) (threw : option Err).

Section Run.
Variable World : Type.
Variable onControl : World -> Device -> ControlRequest -> World * (Err + Buffer).
Variable onCall : World -> Call -> World * option Err.

Fixpoint run {A : Type} (p : Js A) (w : World) : list Event * JsResult A :=
  match p with
  | Ret a => ([], Return a)
  | Fail e => ([], Throw e)
  | Ctl d req k =>
      let (w', r) := onControl w d req in
      let (tr, res) := run (k r) w' in
      (EvIssue d req :: EvDone r :: tr, res)
  | Ext c k =>
      let (w', r) := onCall w c in
      let (tr, res) := run (k r) w' in
      (EvCall c r :: tr, res)
  | Issue d req k =>
      let (tr, res) := run k w in
      (EvIssue d req :: tr, res)
  | Await d req k =>
      let (w', r) := onControl w d req in
      let (tr, res) := run (k r) w' in
      (EvDone r :: tr, res)
  end.

Definition trace {A : Type} (p : Js A) (w : World) : list Event :=
  fst (run p w).

Definition outcome {A : Type} (p : Js A) (w : World) : JsResult A :=
  snd (run p w).
End Run.
Arguments run {World} onControl onCall {A} p w.
Arguments trace {World} onControl onCall {A} p w.
Arguments outcome {World} onControl onCall {A} p w.

(** The control transfers of a trace, in the order they were issued. *)
Fixpoint issued (tr : list Event) : list ControlRequest :=
  match tr with
  | [] => []
  | EvIssue _ req :: tr' => req :: issued tr'
  | _ :: tr' => issued tr'
  end.

(** The [emit] calls of a trace for one event name. *)
Fixpoint emitted (event : string) (tr : list Event) : list (list JsValue) :=
  match tr with
  | [] => []
  | EvCall (EmitEvent name args) _ :: tr' =>
      if String.eqb name event then args :: emitted event tr'
      else emitted event tr'
  | _ :: tr' => emitted event tr'
  end.

(** Failed steps of a trace: a control transfer that completed with an
    error, or a [startPoll] that threw. *)
Definition failure (ev : Event) : option Err :=
  match ev with
  | EvDone (inl e) => Some e
  | EvCall (StartPoll _) (Some e) => Some e
  | _ => None
  end.

Fixpoint failures (tr : list Event) : list Err :=
  match tr with
  | [] => []
  | ev :: tr' =>
      match failure ev with
      | Some e => e :: failures tr'
      | None => failures tr'
      end
  end.

(** The replies to the control transfers of one request type. *)
Fixpoint repliesTo (type : Z) (tr : list Event) : list (Err + Buffer) :=
  match tr with
  | [] => []
  | EvIssue _ req :: EvDone r :: tr' =>
      if bmRequestType req =? type then r :: repliesTo type tr'
      else repliesTo type tr'
  | _ :: tr' => repliesTo type tr'
  end.

(** Every control transfer of the trace has completed before the next
    event. *)
Fixpoint sequential (tr : list Event) : bool :=
  match tr with
  | [] => true
  | EvIssue _ _ :: EvDone _ :: tr' => sequential tr'
  | EvIssue _ _ :: _ => false
  | EvDone _ :: _ => false
  | EvCall _ _ :: tr' => sequential tr'
  end.

(** The data of the transfers that completed without error. *)
Fixpoint successes (tr : list Event) : list Buffer :=
  match tr with
  | [] => []
  | EvDone (inr b) :: tr' => b :: successes tr'
  | _ :: tr' => successes tr'
  end.

(** The block that step 12 writes for the rate [b]: lines 63-67 applied to
    the reply to the read of the line configuration in [tr]. *)
Definition lineBlockOf (b : Z) (tr : list Event) : Buffer :=
  match repliesTo 0xa1 tr with
  | [inr tpl] =>
      match writeInt32LE tpl b 0 with
      | Return p => setIndex (setIndex (setIndex p 4 0) 5 0) 6 8
      | Throw _ => []
      end
  | _ => []
  end.


(** ** The bring-up sequence of the specification (section 4.3)

    A step is a call of [vendorRead] (index 0) or [vendorWrite], or one half
    of the read-modify-write of the line configuration; [stepRequest] is the
    control transfer the step issues. *)

Inductive Step : Type :=
| VendorRead (reg : Z)
| VendorWrite (reg value : Z)
| GetLine
| SetLine (block : Buffer).

Definition stepRequest (s : Step) : ControlRequest :=
  match s with
  | VendorRead reg => mkReq 0xc0 0x01 reg 0 (Length 1)
  | VendorWrite reg value => mkReq 0x40 0x01 reg value (Data [])
  | GetLine => mkReq 0xa1 0x21 0 0 (Length 7)
  | SetLine block => mkReq 0x21 0x20 0 0 (Data block)
  end.

Definition bringUpSteps (block : Buffer) : list Step :=
  [ VendorRead 0x8484; VendorWrite 0x0404 0; VendorRead 0x8484;
    VendorRead 0x8383; VendorRead 0x8484; VendorWrite 0x0404 1;
    VendorRead 0x8484; VendorRead 0x8383; VendorWrite 0 1;
    VendorWrite 1 0; VendorWrite 2 0x44; GetLine; SetLine block;
    VendorWrite 0 0; VendorWrite 8 0; VendorWrite 9 0 ].

(** The number a payload holds, read little-endian; the empty payload
    holds 0. *)
Fixpoint leValue (b : Buffer) : Z :=
  match b with
  | [] => 0
  | x :: b' => x + 256 * leValue b'
  end.

(** The specification's reading of [vendorWrite]: the payload of the
    transfer is the numeric value. *)
Definition payloadIs (d : DataOrLength) (v : Z) : Prop :=
  match d with
  | Data b => leValue b = v /\ (v = 0 -> b = [])
  | Length _ => False
  end.

(** The comparator that orders by increasing key. *)
Definition byKey {A : Type} (key : A -> Z) (a b : A) : Z := key a - key b.

(** ** Sample devices and environments *)

Definition intEp0 : Endpoint := mkEndpoint 0x81 LIBUSB_TRANSFER_TYPE_INTERRUPT "in".
Definition outEp0 : Endpoint := mkEndpoint 0x02 LIBUSB_TRANSFER_TYPE_BULK "out".
Definition inEp0 : Endpoint := mkEndpoint 0x83 LIBUSB_TRANSFER_TYPE_BULK "in".
Definition iface0 : Interface := mkInterface 0 [intEp0; outEp0; inEp0].

Definition pl2303 (addr : Z) : Device :=
  mkDevice addr (mkDescriptor 0x067b 0x2303 0 0x40) [iface0].

Definition hub : Device :=
  mkDevice 1 (mkDescriptor 0x1d6b 0x0002 9 0x40) [].

(** A stack on which every transfer and every call succeeds; a read of
    [n] bytes returns [n] zero bytes. *)
Definition replyOk (w : unit) (d : Device) (req : ControlRequest)
  : unit * (Err + Buffer) :=
  (w, inr match dataOrLength req with
          | Length n => repeat 0 (Z.to_nat n)
          | Data _ => []
          end).

Definition callOk (w : unit) (c : Call) : unit * option Err := (w, None).

(** A stack whose control transfers succeed [w] times and then fail with
    LIBUSB_ERROR_IO. *)
Definition replyFailing (w : nat) (d : Device) (req : ControlRequest)
  : nat * (Err + Buffer) :=
  match w with
  | O => (O, inl (TransportError (-1)))
  | S w' => (w', snd (replyOk tt d req))
  end.

Definition callOkN (w : nat) (c : Call) : nat * option Err := (w, None).

(** ** Teardown (lines 129-135)

    [close] calls into the event emitter, the interface and the device, and
    hands [release] a callback that the usb module invokes, with the error
    of the release if there is one, after [close] has returned, or never.
    The callback is a synchronous program of its own; an exception it
    throws reaches no caller. *)

Inductive TeardownCall : Type :=
| RemoveAllListeners
| Release (i : Interface) (closeEndpoints : bool)
| CloseDevice (d : Device)
| InvokeCallback (cb : nat) (args : list JsValue).

Inductive Sync : Type :=
| SReturn
| SThrow (e : Err)
| SCall (c : TeardownCall) (k : option Err -> Sync).

Inductive Teardown : Type :=
| TReturn
| TThrow (e : Err)
| TCall (c : TeardownCall) (k : option Err -> Teardown)
| TRelease (i : Interface) (closeEndpoints : bool)
    (callback : option Err -> Sync) (k : option Err -> Teardown).

(** [f()] for the argument of [close]: [None] is a missing callback, and
    calling it is a TypeError. *)
Definition invoke (cb : option nat) (args : list JsValue) : Sync :=
  match cb with
  | Some f => SCall (InvokeCallback f args)
                (fun r => match r with None => SReturn | Some e => SThrow e end)
  | None => SThrow TypeError
  end.

Definition close (this : UsbSerial) (cb : option nat) : Teardown :=
  TCall RemoveAllListeners (fun r =>
    match r with
    | Some e => TThrow e
    | None =>
        TRelease (iface this) true
          (fun _ =>
             SCall (CloseDevice (device this)) (fun r =>
               match r with
               | Some e => SThrow e
               | None => invoke cb []
               end))
          (fun r => match r with None => TReturn | Some e => TThrow e end)
    end).

Inductive TdEvent : Type :=
| TdCalled (c : TeardownCall) (threw : option Err)
| TdReturned (res : JsResult unit)
| TdCompleted (i : Interface) (err : option Err)
| TdUncaught (e : Err).

Section RunTeardown.
Variable World : Type.
(** A synchronous call returns or throws. *)
Variable onTeardown : World -> TeardownCall -> World * option Err.
(** A release that was started completes with or without an error, or
    never completes. *)
Variable onCompletion : World -> Interface -> World * option (option Err).

Fixpoint runSync (p : Sync) (w : World) : list TdEvent * World :=
  match p with
  | SReturn => ([], w)
  | SThrow e => ([TdUncaught e], w)
  | SCall c k =>
      let (w', r) := onTeardown w c in
      let (tr, w'') := runSync (k r) w' in
      (TdCalled c r :: tr, w'')
  end.

(** The synchronous part: its events, its result, and the callbacks it
    has left with the usb module. *)
Fixpoint runTeardown (p : Teardown) (w : World)
  : list TdEvent * World * JsResult unit
    * list (Interface * (option Err -> Sync)) :=
  match p with
  | TReturn => ([], w, Return tt, [])
  | TThrow e => ([], w, Throw e, [])
  | TCall c k =>
      let (w', r) := onTeardown w c in
      let '(tr, w'', res, pending) := runTeardown (k r) w' in
      (TdCalled c r :: tr, w'', res, pending)
  | TRelease i closeEndpoints callback k =>
      let (w', r) := onTeardown w (Release i closeEndpoints) in
      let '(tr, w'', res, pending) := runTeardown (k r) w' in
      (TdCalled (Release i closeEndpoints) r :: tr, w'', res,
       match r with
       | None => (i, callback) :: pending
       | Some _ => pending
       end)
  end.

Fixpoint runPending (pending : list (Interface * (option Err -> Sync)))
    (w : World) : list TdEvent :=
  match pending with
  | [] => []
  | (i, callback) :: rest =>
      let (w', done) := onCompletion w i in
      match done with
      | None => runPending rest w'
      | Some err =>
          let (tr, w'') := runSync (callback err) w' in
          TdCompleted i err :: tr ++ runPending rest w''
      end
  end.

(** A whole run: the call, its return, then the completions. *)
Definition runClose (p : Teardown) (w : World) : list TdEvent :=
  let '(tr, w', res, pending) := runTeardown p w in
  tr ++ TdReturned res :: runPending pending w'.
End RunTeardown.
Arguments runSync {World} onTeardown p w.
Arguments runTeardown {World} onTeardown p w.
Arguments runPending {World} onTeardown onCompletion pending w.
Arguments runClose {World} onTeardown onCompletion p w.

(** The synchronous calls of a teardown trace, in order. *)
Fixpoint tdCalls (tr : list TdEvent) : list TeardownCall :=
  match tr with
  | [] => []
  | TdCalled c _ :: tr' => c :: tdCalls tr'
  | _ :: tr' => tdCalls tr'
  end.

(** The endpoints on which a trace starts polling. *)
Fixpoint polled (tr : list Event) : list Endpoint :=
  match tr with
  | [] => []
  | EvCall (StartPoll e) _ :: tr' => e :: polled tr'
  | _ :: tr' => polled tr'
  end.

(** A usb module whose teardown calls all return, and whose release
    completes with the error it is given. *)
Definition teardownOk (w : unit) (c : TeardownCall) : unit * option Err :=
  (w, None).

Definition completesWith (err : option Err) (w : unit) (i : Interface)
  : unit * option (option Err) :=
  (w, Some err).

(** A stack that answers every read with [n] zero bytes. *)
Definition replyBytes (n : nat) (w : unit) (d : Device) (req : ControlRequest)
  : unit * (Err + Buffer) :=
  (w, inr (repeat 0 n)).

(** An emitter without a listener for [error]: [emit('error', err)] throws
    [err]; every other call returns. *)
Definition callNoErrorListener (w : nat) (c : Call) : nat * option Err :=
  (w, match c with
      | EmitEvent name [VError e] =>
          if String.eqb name "error" then Some e else None
      | _ => None
      end).

(** Consecutive rates, each at most twice the one before it. *)
Fixpoint doubling (a : Z) (l : list Z) : Prop :=
  match l with
  | [] => True
  | a' :: l' => a <= a' <= 2 * a /\ doubling a' l'
  end.

(** * Properties *)

(** ** The sort is a stable sort *)

Section SortByKey.
Context {A : Type}.
Variable key : A -> Z.

Lemma insert_perm (x : A) (l : list A) :
  Permutation (x :: l) (insert (byKey key) x l).
Proof.
  induction l as [|y l IH]; simpl.
  - apply Permutation_refl.
  - destruct (byKey key x y <=? 0).
    + apply Permutation_refl.
    + eapply perm_trans; [apply perm_swap|].
      now apply perm_skip.
Qed.

Lemma sort_perm (l : list A) : Permutation l (sort (byKey key) l).
Proof.
  induction l as [|x l IH]; simpl.
  - constructor.
  - eapply perm_trans; [apply perm_skip, IH|apply insert_perm].
Qed.

Lemma insert_sorted (x : A) (l : list A) :
  StronglySorted (fun a b => key a <= key b) l ->
  StronglySorted (fun a b => key a <= key b) (insert (byKey key) x l).
Proof.
  induction 1 as [|y l Hl IH Hy]; simpl.
  - repeat constructor.
  - unfold byKey at 1.
    destruct (Z.leb_spec (key x - key y) 0) as [Hle|Hgt].
    + constructor; [now constructor|].
      constructor; [lia|].
      eapply Forall_impl; [|exact Hy]. simpl. intros; lia.
    + constructor; [exact IH|].
      eapply Permutation_Forall; [apply insert_perm|].
      constructor; [lia|exact Hy].
Qed.

Lemma sort_sorted (l : list A) :
  StronglySorted (fun a b => key a <= key b) (sort (byKey key) l).
Proof.
  induction l as [|x l IH]; simpl.
  - constructor.
  - now apply insert_sorted.
Qed.

Lemma insert_stable (k : Z) (x : A) (l : list A) :
  filter (fun e => key e =? k) (insert (byKey key) x l)
  = filter (fun e => key e =? k) (x :: l).
Proof.
  induction l as [|y l IH]; simpl; [reflexivity|].
  unfold byKey at 1.
  destruct (Z.leb_spec (key x - key y) 0) as [Hle|Hgt]; [reflexivity|].
  simpl. rewrite IH. simpl.
  destruct (Z.eqb_spec (key y) k), (Z.eqb_spec (key x) k);
    try reflexivity; lia.
Qed.

(** Elements with equal keys leave the sort in the order they entered. *)
Lemma sort_stable (k : Z) (l : list A) :
  filter (fun e => key e =? k) (sort (byKey key) l)
  = filter (fun e => key e =? k) l.
Proof.
  induction l as [|x l IH]; simpl; [reflexivity|].
  rewrite insert_stable. simpl. now rewrite IH.
Qed.

Lemma insert_head (x : A) (l : list A) :
  nth_error (insert (byKey key) x l) 0
  = match nth_error l 0 with
    | None => Some x
    | Some h => if key x - key h <=? 0 then Some x else Some h
    end.
Proof.
  destruct l as [|y l]; simpl; [reflexivity|].
  unfold byKey. now destruct (key x - key y <=? 0).
Qed.

(** The first element of the sorted array is the first element of the
    input whose key is minimal. *)
Lemma sort_head_first_min (l : list A) :
  l <> [] ->
  exists h l1 l2,
    nth_error (sort (byKey key) l) 0 = Some h /\
    l = l1 ++ h :: l2 /\
    Forall (fun e => key h < key e) l1 /\
    Forall (fun e => key h <= key e) l2.
Proof.
  induction l as [|x l IH]; [congruence|intros _].
  simpl sort. rewrite insert_head.
  destruct l as [|y l].
  - exists x, [], []. simpl. repeat split; constructor.
  - destruct IH as (h & l1 & l2 & Hh & Hl & H1 & H2); [discriminate|].
    rewrite Hh.
    destruct (Z.leb_spec (key x - key h) 0) as [Hle|Hgt].
    + exists x, [], (y :: l). repeat split; [constructor|].
      rewrite Hl. apply Forall_app. split.
      * eapply Forall_impl; [|exact H1]. simpl. intros; lia.
      * constructor; [lia|].
        eapply Forall_impl; [|exact H2]. simpl. intros; lia.
    + exists h, (x :: l1), l2. repeat split.
      * rewrite Hl. reflexivity.
      * constructor; [lia|exact H1].
      * exact H2.
Qed.
End SortByKey.

(** ** The table *)

Lemma SupportedBaudrates_ascending : StronglySorted Z.lt SupportedBaudrates.
Proof. unfold SupportedBaudrates. repeat constructor. Qed.

Lemma ascending_after (l1 l2 : list Z) (b e : Z) :
  StronglySorted Z.lt (l1 ++ b :: l2) -> In e l2 -> b < e.
Proof.
  induction l1 as [|x l1 IH]; simpl; intros Hs He.
  - apply StronglySorted_inv in Hs. destruct Hs as [_ Hall].
    rewrite Forall_forall in Hall. now apply Hall.
  - apply StronglySorted_inv in Hs. now apply IH.
Qed.

(** C4, as amended: the table of supported rates is a fixed table in
    strictly ascending order, and it holds exactly 25 rates. *)
Theorem SupportedBaudrates_ascending_25 :
  StronglySorted Z.lt SupportedBaudrates /\
  List.length SupportedBaudrates = 25%nat.
Proof. split; [exact SupportedBaudrates_ascending|reflexivity]. Qed.

(** C4, as stated, fails: the table does not hold 26 rates. *)
Lemma SupportedBaudrates_not_26 :
  ~ (StronglySorted Z.lt SupportedBaudrates /\
     List.length SupportedBaudrates = 26%nat).
Proof. intros [_ H]. discriminate H. Qed.

(** ** The negotiator selects the nearest rate *)

Lemma newBaud_first_min (r : Z) :
  exists b l1 l2,
    newBaud r = Some b /\
    SupportedBaudrates = l1 ++ b :: l2 /\
    Forall (fun e => Z.abs (b - r) < Z.abs (e - r)) l1 /\
    Forall (fun e => Z.abs (b - r) <= Z.abs (e - r)) l2.
Proof.
  apply (sort_head_first_min (fun e => Z.abs (e - r)) SupportedBaudrates).
  discriminate.
Qed.

Lemma setBaudrate_in_range (d : Device) (r : Z) :
  r <= 115200 ->
  setBaudrate d r
  = match newBaud r with
    | Some rate => setBaudrate_chain d rate
    | None => Fail TypeError
    end.
Proof.
  intros Hr. unfold setBaudrate.
  destruct (Z.leb_spec r 115200) as [_|Hgt]; [reflexivity|lia].
Qed.

(** C1: for a requested rate [r <= 115200], [setBaudrate] goes on with a
    rate [b] of the table that minimizes [|b - r|]; [b] is the first such
    entry of the table, hence the lower of two equidistant entries; and
    [b = r] when [r] is itself in the table. *)
Theorem setBaudrate_selects_nearest (d : Device) (r : Z) (Hr : r <= 115200) :
  exists b l1 l2,
    newBaud r = Some b /\
    setBaudrate d r = setBaudrate_chain d b /\
    SupportedBaudrates = l1 ++ b :: l2 /\
    (forall e, In e SupportedBaudrates -> Z.abs (b - r) <= Z.abs (e - r)) /\
    (forall e, In e l1 -> Z.abs (b - r) < Z.abs (e - r)) /\
    (forall e, In e SupportedBaudrates ->
               Z.abs (e - r) = Z.abs (b - r) -> b <= e) /\
    (In r SupportedBaudrates -> b = r).
Proof.
  destruct (newBaud_first_min r) as (b & l1 & l2 & Hb & Hl & H1 & H2).
  rewrite Forall_forall in H1, H2.
  assert (Hmin : forall e, In e SupportedBaudrates ->
                           Z.abs (b - r) <= Z.abs (e - r)).
  { intros e He. rewrite Hl in He. apply in_app_or in He.
    destruct He as [He|[He|He]].
    - specialize (H1 e He). lia.
    - subst e. lia.
    - now apply H2. }
  exists b, l1, l2. repeat split; try assumption.
  - rewrite (setBaudrate_in_range d r Hr), Hb. reflexivity.
  - intros e He Heq. pose proof SupportedBaudrates_ascending as Hs.
    rewrite Hl in He, Hs. apply in_app_or in He.
    destruct He as [He|[He|He]].
    + specialize (H1 e He). lia.
    + subst e. lia.
    + pose proof (ascending_after l1 l2 b e Hs He). lia.
  - intros Hin. specialize (Hmin r Hin). lia.
Qed.

Lemma setBaudrate_selects_nearest_witness :
  100000 <= 115200 /\
  exists b l1 l2,
    newBaud 100000 = Some b /\
    setBaudrate (pl2303 1) 100000 = setBaudrate_chain (pl2303 1) b /\
    SupportedBaudrates = l1 ++ b :: l2 /\
    (forall e, In e SupportedBaudrates ->
               Z.abs (b - 100000) <= Z.abs (e - 100000)) /\
    (forall e, In e l1 -> Z.abs (b - 100000) < Z.abs (e - 100000)) /\
    (forall e, In e SupportedBaudrates ->
               Z.abs (e - 100000) = Z.abs (b - 100000) -> b <= e) /\
    (In 100000 SupportedBaudrates -> b = 100000).
Proof.
  split; [lia|].
  apply (setBaudrate_selects_nearest _ 100000). lia.
Defined.

Lemma setBaudrate_cases (d : Device) (r : Z) :
  (r <= 115200 /\
   exists b, newBaud r = Some b /\ setBaudrate d r = setBaudrate_chain d b) \/
  (115200 < r /\ setBaudrate d r = Fail AssertionError).
Proof.
  destruct (Z.leb_spec r 115200) as [Hle|Hgt].
  - left. split; [exact Hle|].
    destruct (newBaud_first_min r) as (b & _ & _ & Hb & _).
    exists b. split; [exact Hb|].
    rewrite (setBaudrate_in_range d r Hle), Hb. reflexivity.
  - right. split; [exact Hgt|].
    unfold setBaudrate.
    destruct (Z.leb_spec r 115200); [lia|reflexivity].
Qed.

Lemma SupportedBaudrates_range :
  Forall (fun b => 0 < b <= 6000000) SupportedBaudrates.
Proof. unfold SupportedBaudrates. repeat constructor; lia. Qed.

Lemma newBaud_in_table (r b : Z) :
  newBaud r = Some b -> In b SupportedBaudrates.
Proof.
  intros Hb. destruct (newBaud_first_min r) as (b' & l1 & l2 & Hb' & Hl & _).
  rewrite Hb in Hb'. injection Hb' as <-.
  rewrite Hl. apply in_or_app. right. now left.
Qed.

(** ** The line-configuration block *)

(** On a block of seven bytes, writing a rate below 2^31 and the three
    fixed parameters overwrites every byte. *)
Lemma line_block_bytes (tpl : Buffer) (b : Z) :
  List.length tpl = 7%nat -> 0 <= b < 0x80000000 ->
  exists p,
    writeInt32LE tpl b 0 = Return p /\
    setIndex (setIndex (setIndex p 4 0) 5 0) 6 8
    = [ b mod 256; Z.shiftr b 8 mod 256; Z.shiftr b 16 mod 256;
        Z.shiftr b 24 mod 256; 0; 0; 8 ].
Proof.
  intros Hlen Hb.
  destruct tpl as [|t0 [|t1 [|t2 [|t3 [|t4 [|t5 [|t6 [|t7 tpl]]]]]]]];
    try discriminate Hlen.
  unfold writeInt32LE.
  destruct (Z.ltb_spec b (- 0x80000000)); [lia|].
  destruct (Z.ltb_spec 0x7fffffff b); [lia|].
  simpl. eexists. split; reflexivity.
Qed.

Lemma writeInt32LE_returns (buf : Buffer) (b : Z) :
  (4 <= List.length buf)%nat -> 0 <= b < 0x80000000 ->
  exists p, writeInt32LE buf b 0 = Return p.
Proof.
  intros Hlen Hb. unfold writeInt32LE.
  destruct (Z.ltb_spec b (- 0x80000000)); [lia|].
  destruct (Z.ltb_spec 0x7fffffff b); [lia|].
  destruct (Z.ltb_spec (Z.of_nat (List.length buf)) (0 + 4)); [lia|].
  simpl. eexists. reflexivity.
Qed.

Lemma writeInt32LE_short (buf : Buffer) (b : Z) :
  (List.length buf < 4)%nat -> 0 <= b < 0x80000000 ->
  writeInt32LE buf b 0 = Throw RangeError.
Proof.
  intros Hlen Hb. unfold writeInt32LE.
  destruct (Z.ltb_spec b (- 0x80000000)); [lia|].
  destruct (Z.ltb_spec 0x7fffffff b); [lia|].
  destruct (Z.ltb_spec (Z.of_nat (List.length buf)) (0 + 4)); [|lia].
  reflexivity.
Qed.

Lemma le_bytes_value (b : Z) :
  0 <= b < 0x80000000 ->
  b mod 256 + 256 * (Z.shiftr b 8 mod 256) + 65536 * (Z.shiftr b 16 mod 256)
  + 16777216 * (Z.shiftr b 24 mod 256) = b.
Proof.
  intros Hb. rewrite !Z.shiftr_div_pow2 by lia.
  change (2 ^ 8) with 256. change (2 ^ 16) with 65536.
  change (2 ^ 24) with 16777216.
  Z.div_mod_to_equations. lia.
Qed.

(** ** Behaviour against an arbitrary USB stack *)

Section Behaviour.
Variable World : Type.
Variable onControl : World -> Device -> ControlRequest -> World * (Err + Buffer).
Variable onCall : World -> Call -> World * option Err.

(** One reply of the environment at a time. *)
Ltac step :=
  match goal with
  | |- context [onControl ?w ?d ?r] =>
      destruct (onControl w d r) as [? [?|?]]; simpl
  | |- context [onCall ?w ?c] =>
      destruct (onCall w c) as [? [?|]]; simpl
  end.

Lemma trace_Ctl {A : Type} (d : Device) (req : ControlRequest)
    (k : Err + Buffer -> Js A) (w w' : World) (r : Err + Buffer) :
  onControl w d req = (w', r) ->
  trace onControl onCall (Ctl d req k) w
  = EvIssue d req :: EvDone r :: trace onControl onCall (k r) w'.
Proof.
  intros H. unfold trace. simpl. rewrite H.
  now destruct (run onControl onCall (k r) w').
Qed.

(** A [then] callback runs after its promise is fulfilled, and not at all
    when it is rejected. *)
Lemma trace_then_rejected {A B : Type} (p : Js A) (f : A -> Js B) (w : World)
    (e : Err) :
  outcome onControl onCall p w = Throw e ->
  run onControl onCall (p >>= f) w
  = (trace onControl onCall p w, Throw e).
Proof.
  unfold outcome, trace. revert w.
  induction p as [a|e'|d req k IH|c k IH|d req k IH|d req k IH];
    intros w; simpl.
  - discriminate.
  - now intros [= ->].
  - destruct (onControl w d req) as [w' r]. specialize (IH r w').
    destruct (run onControl onCall (k r) w') as [tr res]. simpl in *.
    intros H. rewrite (IH H). reflexivity.
  - destruct (onCall w c) as [w' r]. specialize (IH r w').
    destruct (run onControl onCall (k r) w') as [tr res]. simpl in *.
    intros H. rewrite (IH H). reflexivity.
  - specialize (IH w).
    destruct (run onControl onCall k w) as [tr res]. simpl in *.
    intros H. rewrite (IH H). reflexivity.
  - destruct (onControl w d req) as [w' r]. specialize (IH r w').
    destruct (run onControl onCall (k r) w') as [tr res]. simpl in *.
    intros H. rewrite (IH H). reflexivity.
Qed.

(** The transfer a created chain has issued, and its wait for it, are the
    transfer the chain begins with. *)
Lemma trace_awaiting {A : Type} (d : Device) (req : ControlRequest)
    (k : Err + Buffer -> Js A) (w : World) :
  EvIssue d req :: trace onControl onCall (awaiting (Ctl d req k)) w
  = trace onControl onCall (Ctl d req k) w.
Proof.
  unfold trace, awaiting. simpl.
  destruct (onControl w d req) as [w' r].
  now destruct (run onControl onCall (k r) w').
Qed.

(** *** The vendor register protocol *)

Lemma vendorRead_issues (w : World) (d : Device) (reg : Z) :
  issued (trace onControl onCall (vendorRead d reg 0) w)
  = [stepRequest (VendorRead reg)].
Proof. unfold trace, vendorRead. simpl. step; reflexivity. Qed.

Lemma vendorWrite_issues (w : World) (d : Device) (reg value : Z) :
  issued (trace onControl onCall (vendorWrite d reg value) w)
  = [stepRequest (VendorWrite reg value)].
Proof. unfold trace, vendorWrite. simpl. step; reflexivity. Qed.

(** C5, as amended: [vendorWrite(regIndex, value)] issues exactly one
    host-to-device control transfer with request type 0x40, request 0x01,
    the value field equal to [regIndex], the index field equal to [value],
    and a data payload of length zero whatever [value] is. *)
Theorem vendorWrite_transfer (w : World) (d : Device) (regIndex value : Z) :
  exists reply,
    trace onControl onCall (vendorWrite d regIndex value) w
    = [ EvIssue d (mkReq 0x40 0x01 regIndex value (Data []));
        EvDone reply ].
Proof.
  unfold trace, vendorWrite. simpl. step; eexists; reflexivity.
Qed.

(** *** The bring-up chain *)

Lemma bringUp_head (d : Device) (r : Z) (inEp : Endpoint) :
  exists k,
    bringUp d r inEp = Ctl d (mkReq 0xc0 0x01 0x8484 0 (Length 1)) k.
Proof. eexists. reflexivity. Qed.

Lemma bringUp_order_core (w : World) (d : Device) (inEp : Endpoint) (r b : Z) :
  newBaud r = Some b ->
  0 <= b < 0x80000000 ->
  setBaudrate d r = setBaudrate_chain d b ->
  let tr := trace onControl onCall (bringUp d r inEp) w in
  sequential tr = true /\
  (exists block rest,
      map stepRequest (bringUpSteps block) = issued tr ++ rest) /\
  (emitted "ready" tr <> [] ->
   exists tpl p,
     repliesTo 0xa1 tr = [inr tpl] /\
     writeInt32LE tpl b 0 = Return p /\
     issued tr
     = map stepRequest
         (bringUpSteps (setIndex (setIndex (setIndex p 4 0) 5 0) 6 8))) /\
  (failures tr = [] ->
   forall tpl, repliesTo 0xa1 tr = [inr tpl] ->
               (4 <= List.length tpl)%nat ->
               emitted "ready" tr = [[]]) /\
  ((forall tpl, repliesTo 0xa1 tr = [inr tpl] ->
                (4 <= List.length tpl)%nat) ->
   issued tr
   = firstn (S (List.length (successes tr)))
       (map stepRequest (bringUpSteps (lineBlockOf b tr)))) /\
  (forall tpl, repliesTo 0xa1 tr = [inr tpl] ->
               (List.length tpl < 4)%nat ->
               issued tr = map stepRequest (firstn 12 (bringUpSteps []))).
Proof.
  intros Hb Hrange Hset.
  unfold trace, bringUp, lineBlockOf. rewrite Hset. clear Hset.
  unfold setBaudrate_chain. simpl.
  repeat step.
  all: try (destruct (writeInt32LE _ b 0) eqn:Hw; simpl; repeat step).
  all: try rewrite Hw.
  all: split; [reflexivity|].
  all: split;
    [ first [ exists []; eexists; reflexivity | do 2 eexists; reflexivity ] |].
  all: split;
    [ intros Hready; try (exfalso; apply Hready; reflexivity);
      do 2 eexists; repeat split; eassumption |].
  all: split;
    [ intros Hnone tpl Hreply Hlen; try discriminate Hnone;
      try reflexivity;
      injection Hreply as <-;
      destruct (writeInt32LE_returns _ b Hlen Hrange) as [p Hp]; congruence |].
  all: split.
  all: try (intros Hlen; try reflexivity;
            specialize (Hlen _ eq_refl);
            destruct (writeInt32LE_returns _ b Hlen Hrange) as [p Hp];
            congruence).
  all: intros tpl Hreply Hshort; try discriminate Hreply; try reflexivity.
  all: injection Hreply as <-;
    rewrite (writeInt32LE_short _ b Hshort Hrange) in Hw; discriminate Hw.
Qed.

(** C2: for a requested rate [r <= 115200] the control transfers of the
    bring-up are issued in the order of steps 1-15 of the specification's
    section 4.3, each after the one before it has completed.  The first is
    always issued, and each further one is issued as soon as all before it
    have completed without error, and not otherwise: with [n] transfers
    completed without error, what has been issued is the first [n + 1]
    transfers of the sequence (all sixteen when [n] is 16).  The one
    exception is a read of step 12 answered with fewer than four bytes,
    after which nothing more is issued.  A run that reaches [ready] has
    issued all sixteen, and a run in which no step fails reaches [ready].
    The sequence depends on [r] through the block written in step 12
    only. *)
Theorem bringUp_order (w : World) (d : Device) (inEp : Endpoint) (r : Z)
    (Hr : r <= 115200) :
  let tr := trace onControl onCall (bringUp d r inEp) w in
  sequential tr = true /\
  (exists block rest,
      map stepRequest (bringUpSteps block) = issued tr ++ rest) /\
  (emitted "ready" tr <> [] ->
   exists b tpl p,
     newBaud r = Some b /\
     repliesTo 0xa1 tr = [inr tpl] /\
     writeInt32LE tpl b 0 = Return p /\
     issued tr
     = map stepRequest
         (bringUpSteps (setIndex (setIndex (setIndex p 4 0) 5 0) 6 8))) /\
  (failures tr = [] ->
   forall tpl, repliesTo 0xa1 tr = [inr tpl] ->
               (4 <= List.length tpl)%nat ->
               emitted "ready" tr = [[]]) /\
  (exists b,
      newBaud r = Some b /\
      ((forall tpl, repliesTo 0xa1 tr = [inr tpl] ->
                    (4 <= List.length tpl)%nat) ->
       issued tr
       = firstn (S (List.length (successes tr)))
           (map stepRequest (bringUpSteps (lineBlockOf b tr))))) /\
  (forall tpl, repliesTo 0xa1 tr = [inr tpl] ->
               (List.length tpl < 4)%nat ->
               issued tr = map stepRequest (firstn 12 (bringUpSteps []))).
Proof.
  intros tr.
  destruct (setBaudrate_cases d r) as [(_ & b & Hb & Hset)|(Hgt & _)]; [|lia].
  assert (Hrange : 0 <= b < 0x80000000).
  { pose proof SupportedBaudrates_range as HR. rewrite Forall_forall in HR.
    specialize (HR b (newBaud_in_table r b Hb)). lia. }
  destruct (bringUp_order_core w d inEp r b Hb Hrange Hset)
    as (Hseq & Hprefix & Hready & Hnone & Hprogress & Hshort).
  split; [exact Hseq|]. split; [exact Hprefix|].
  split; [|split; [exact Hnone|split; [|exact Hshort]]].
  - intros Hr'. destruct (Hready Hr') as (tpl & p & H1 & H2 & H3).
    exists b, tpl, p. auto.
  - exists b. split; [exact Hb|exact Hprogress].
Qed.

(** C3: when a step of the bring-up fails with an error [e], the failed
    step is the last step executed: all that follows it is one [emit] of
    [error] with [e]; no step before it had failed; [error] is emitted
    exactly once in the run, and [ready] never. *)
Theorem bringUp_failure (w : World) (d : Device) (inEp : Endpoint) (r : Z)
    (e : Err) :
  let tr := trace onControl onCall (bringUp d r inEp) w in
  In e (failures tr) ->
  (exists before ev threw,
      tr = before ++ [ev; EvCall (EmitEvent "error" [VError e]) threw] /\
      failure ev = Some e /\
      failures before = []) /\
  emitted "error" tr = [[VError e]] /\
  emitted "ready" tr = [].
Proof.
  unfold trace, bringUp.
  destruct (setBaudrate_cases d r) as [(_ & b & Hb & ->)|(_ & ->)];
    unfold setBaudrate_chain; simpl; repeat step.
  all: try (destruct (writeInt32LE _ b 0) eqn:Hw; simpl; repeat step).
  all: intros Hin; simpl in Hin;
    try contradiction; destruct Hin as [<-|[]].
  all: (split; [|split; reflexivity]).
  all: match goal with
       | |- exists before ev threw, ?tr = _ /\ _ =>
           exists (removelast (removelast tr))
       end; simpl; do 2 eexists; repeat split.
Qed.

(** C7: for a requested rate [r > 115200], [setBaudrate] fails its
    assertion before anything else: it selects no rate and issues no
    transfer.  In the bring-up no line-configuration transfer is then ever
    issued, [ready] is never emitted, and when the eleven register steps
    before it succeed the assertion error is what [error] reports. *)
Theorem setBaudrate_above_limit (w : World) (d : Device) (inEp : Endpoint)
    (r : Z) (Hr : 115200 < r) :
  setBaudrate d r = Fail AssertionError /\
  run onControl onCall (setBaudrate d r) w = ([], Throw AssertionError) /\
  let tr := trace onControl onCall (bringUp d r inEp) w in
  Forall (fun req => bmRequestType req <> 0xa1 /\ bmRequestType req <> 0x21)
         (issued tr) /\
  emitted "ready" tr = [] /\
  (failures tr = [] -> emitted "error" tr = [[VError AssertionError]]).
Proof.
  destruct (setBaudrate_cases d r) as [(Hle & _)|(_ & Hset)]; [lia|].
  split; [exact Hset|]. split; [rewrite Hset; reflexivity|].
  unfold trace, bringUp. rewrite Hset. simpl. repeat step.
  all: repeat split; try discriminate; try reflexivity.
  all: repeat first [ apply Forall_nil
                    | apply Forall_cons; [split; discriminate|] ].
Qed.

(** C6: for a requested rate [r <= 115200] and a device that answers the
    read of the line configuration with seven bytes, the block written back
    is seven bytes long: bytes 0-3 are the selected rate [b] in little-endian
    order, byte 4 is 0, byte 5 is 0 and byte 6 is 8.  For 38400 the block is
    00 96 00 00 00 00 08. *)
Theorem setBaudrate_line_block (w w' : World) (d : Device) (r : Z)
    (tpl : Buffer)
    (Hr : r <= 115200)
    (Hlen : List.length tpl = 7%nat)
    (Hread : onControl w d (mkReq 0xa1 0x21 0 0 (Length 7)) = (w', inr tpl)) :
  exists b b0 b1 b2 b3 rest,
    newBaud r = Some b /\
    trace onControl onCall (setBaudrate d r) w
    = EvIssue d (mkReq 0xa1 0x21 0 0 (Length 7))
      :: EvDone (inr tpl)
      :: EvIssue d (mkReq 0x21 0x20 0 0 (Data [b0; b1; b2; b3; 0; 0; 8]))
      :: rest /\
    (0 <= b0 < 256 /\ 0 <= b1 < 256 /\ 0 <= b2 < 256 /\ 0 <= b3 < 256) /\
    b0 + 256 * b1 + 65536 * b2 + 16777216 * b3 = b /\
    (r = 38400 -> [b0; b1; b2; b3] = [0; 150; 0; 0]).
Proof.
  destruct (setBaudrate_cases d r) as [(_ & b & Hb & Hset)|(Hgt & _)]; [|lia].
  assert (Hrange : 0 <= b < 0x80000000).
  { pose proof SupportedBaudrates_range as HR. rewrite Forall_forall in HR.
    specialize (HR b (newBaud_in_table r b Hb)). lia. }
  destruct (line_block_bytes tpl b Hlen Hrange) as (p & Hp & Hblock).
  exists b, (b mod 256), (Z.shiftr b 8 mod 256), (Z.shiftr b 16 mod 256),
    (Z.shiftr b 24 mod 256).
  rewrite Hset. unfold setBaudrate_chain. simpl then_.
  rewrite (trace_Ctl _ _ _ _ _ _ Hread). simpl. rewrite Hp. simpl.
  rewrite Hblock.
  destruct (onControl w' d
              (mkReq 33 32 0 0
                 (Data [b mod 256; Z.shiftr b 8 mod 256;
                        Z.shiftr b 16 mod 256; Z.shiftr b 24 mod 256;
                        0; 0; 8]))) as [w'' reply] eqn:Hwrite.
  rewrite (trace_Ctl _ _ _ _ _ _ Hwrite).
  eexists. split; [exact Hb|]. split; [reflexivity|].
  split; [repeat split; apply Z.mod_pos_bound; lia|].
  split; [apply le_bytes_value; exact Hrange|].
  intros ->. vm_compute in Hb. injection Hb as <-. reflexivity.
Qed.

(** *** The session *)

Lemma index_Some {A : Type} (l : list A) (i : Z) (x : A) :
  index l i = Some x ->
  0 <= i /\ i + 1 <= Z.of_nat (List.length l) /\
  nth_error l (Z.to_nat i) = Some x.
Proof.
  unfold index. destruct (Z.ltb_spec i 0) as [|Hi]; [discriminate|].
  intros H. split; [exact Hi|]. split; [|exact H].
  assert (Hlt : (Z.to_nat i < List.length l)%nat).
  { apply nth_error_Some. congruence. }
  lia.
Qed.

Lemma findEp_returns (i : Interface) (type : Z) (dir : string) (e : Endpoint) :
  findEp i type dir = Return e ->
  transferType e = type /\ direction e = dir /\ In e (endpoints i).
Proof.
  unfold findEp.
  destruct (filter _ (endpoints i)) as [|e' [|e'' l]] eqn:Hf;
    try discriminate.
  intros [= <-].
  assert (Hin : In e' (filter (fun e => (transferType e =? type)
                                        && String.eqb (direction e) dir)
                              (endpoints i))).
  { rewrite Hf. now left. }
  apply filter_In in Hin. destruct Hin as [Hin Htest].
  apply andb_true_iff in Htest. destruct Htest as [Ht Hd].
  apply Z.eqb_eq in Ht. apply String.eqb_eq in Hd. auto.
Qed.

Lemma UsbSerial_new_returns (w : World) (deviceList : list Device)
    (opts : Options) (this : UsbSerial) (chain : Js unit) :
  outcome onControl onCall (UsbSerial_new deviceList opts) w
  = Return (this, chain) ->
  index (findDevices deviceList 0x067b 0x2303) (orDefault (port opts) 0)
  = Some (device this) /\
  bDeviceClass (deviceDescriptor (device this)) <> 0x02 /\
  bMaxPacketSize0 (deviceDescriptor (device this)) = 0x40 /\
  List.length (interfaces (device this)) = 1%nat /\
  interfaces (device this) = [iface this] /\
  findEp (iface this) LIBUSB_TRANSFER_TYPE_BULK "out" = Return (outEp this) /\
  exists inEp,
    findEp (iface this) LIBUSB_TRANSFER_TYPE_BULK "in" = Return inEp /\
    chain = awaiting (bringUp (device this) (orDefault (baudRate opts) 9600) inEp).
Proof.
  unfold outcome, UsbSerial_new.
  destruct (orDefault (port opts) 0
            <? Z.of_nat (List.length (findDevices deviceList 0x067b 0x2303)));
    simpl; [|discriminate].
  destruct (index (findDevices deviceList 0x067b 0x2303)
                  (orDefault (port opts) 0)) as [dev|]; [|discriminate].
  destruct (Z.eqb_spec (bDeviceClass (deviceDescriptor dev)) 0x02) as [|Hclass];
    simpl; [discriminate|].
  destruct (Z.eqb_spec (bMaxPacketSize0 (deviceDescriptor dev)) 0x40)
    as [Hsize|]; simpl; [|discriminate].
  do 2 (step; [discriminate|]).
  destruct (interfaces dev) as [|i [|i' l]] eqn:Hif; simpl; try discriminate.
  step; [discriminate|].
  destruct (findEp i LIBUSB_TRANSFER_TYPE_INTERRUPT "in") as [intEp|];
    simpl; [|discriminate].
  do 3 (step; [discriminate|]).
  destruct (findEp i LIBUSB_TRANSFER_TYPE_BULK "in") as [inEp|] eqn:Hin;
    simpl; [|discriminate].
  do 2 (step; [discriminate|]).
  destruct (findEp i LIBUSB_TRANSFER_TYPE_BULK "out") as [oEp|] eqn:Hout;
    simpl; [|discriminate].
  step; [discriminate|].
  intros [= <- <-]. simpl. rewrite Hif.
  repeat split; try assumption; try reflexivity.
  exists inEp. split; [assumption|reflexivity].
Qed.





(** C9: [send] of a buffer makes exactly one call of [transfer], on the
    session's [outEp] and with the buffer it was given; it passes no
    callback, and it returns [undefined] unless [transfer] itself throws.
    In a session the constructor returned, [outEp] is the one bulk endpoint
    of direction out of the claimed interface. *)
Theorem send_buffer (w : World) (this : UsbSerial) (b : Buffer) :
  (exists threw,
      run onControl onCall (send this (VBuffer b)) w
      = ( [EvCall (Transfer (outEp this) (VBuffer b)) threw],
          match threw with None => Return tt | Some e => Throw e end )) /\
  (forall (w0 : World) (deviceList : list Device) (opts : Options)
          (chain : Js unit),
      outcome onControl onCall (UsbSerial_new deviceList opts) w0
      = Return (this, chain) ->
      transferType (outEp this) = LIBUSB_TRANSFER_TYPE_BULK /\
      direction (outEp this) = "out"%string /\
      In (outEp this) (endpoints (iface this))).
Proof.
  split.
  - unfold send. simpl.
    destruct (onCall w (Transfer (outEp this) (VBuffer b))) as [w' [e|]].
    + exists (Some e). reflexivity.
    + exists None. reflexivity.
  - intros w0 deviceList opts chain Hnew.
    destruct (UsbSerial_new_returns w0 deviceList opts this chain Hnew)
      as (_ & _ & _ & _ & _ & Hout & _).
    exact (findEp_returns _ _ _ _ Hout).
Qed.

(** C10: [send] of a value that is not a Buffer fails the assertion before
    any transfer is attempted; a run of [send] that calls [transfer] was
    given a Buffer. *)
Theorem send_not_buffer (w : World) (this : UsbSerial) (data : JsValue) :
  (instanceofBuffer data = false ->
   run onControl onCall (send this data) w = ([], Throw AssertionError)) /\
  (trace onControl onCall (send this data) w <> [] ->
   exists b, data = VBuffer b).
Proof.
  split.
  - intros Hdata. unfold send. rewrite Hdata. reflexivity.
  - intros Htr. destruct data as [| | | |b];
      try (exfalso; apply Htr; reflexivity).
    now exists b.
Qed.
End Behaviour.

(** ** The theorems at concrete inputs *)

Example newBaud_100000 : newBaud 100000 = Some 115200.
Proof. reflexivity. Qed.

Example newBaud_9600 : newBaud 9600 = Some 9600.
Proof. reflexivity. Qed.

(** 225 is as far from 150 as from 300; the lower rate is selected. *)
Example newBaud_225 : newBaud 225 = Some 150.
Proof. reflexivity. Qed.

(** On a stack that never fails, the bring-up for 38400 issues the sixteen
    transfers, starts polling and emits [ready]. *)
Example bringUp_38400 :
  let tr := trace replyOk callOk (bringUp (pl2303 1) 38400 inEp0) tt in
  issued tr = map stepRequest (bringUpSteps [0; 150; 0; 0; 0; 0; 8]) /\
  failures tr = [] /\
  emitted "ready" tr = [[]] /\
  emitted "error" tr = [].
Proof. repeat split. Qed.

(** When the fourth transfer fails, the bring-up stops there. *)
Example bringUp_fails_at_4 :
  let tr := trace replyFailing callOkN (bringUp (pl2303 1) 9600 inEp0) 3%nat in
  issued tr = firstn 4 (map stepRequest (bringUpSteps [])) /\
  emitted "error" tr = [[VError (TransportError (-1))]] /\
  emitted "ready" tr = [].
Proof. repeat split. Qed.

(** Two matching devices behind a hub: ports 0 and 1 open the first and
    the second, port 2 fails. *)
Example open_port_0 :
  outcome replyOk callOk
    (UsbSerial_new [hub; pl2303 2; pl2303 3] (mkOptions None None)) tt
  = Return (mkUsbSerial (pl2303 2) iface0 outEp0,
            awaiting (bringUp (pl2303 2) 9600 inEp0)).
Proof. reflexivity. Qed.

Example open_port_1 :
  outcome replyOk callOk
    (UsbSerial_new [hub; pl2303 2; pl2303 3] (mkOptions (Some 1) None)) tt
  = Return (mkUsbSerial (pl2303 3) iface0 outEp0,
            awaiting (bringUp (pl2303 3) 9600 inEp0)).
Proof. reflexivity. Qed.

Example open_port_2 :
  run replyOk callOk
    (UsbSerial_new [hub; pl2303 2; pl2303 3] (mkOptions (Some 2) None)) tt
  = ([], Throw AssertionError).
Proof. reflexivity. Qed.

Lemma bringUp_order_witness :
  38400 <= 115200 /\
  let tr := trace replyOk callOk (bringUp (pl2303 1) 38400 inEp0) tt in
  sequential tr = true /\
  (exists block rest,
      map stepRequest (bringUpSteps block) = issued tr ++ rest) /\
  (emitted "ready" tr <> [] ->
   exists b tpl p,
     newBaud 38400 = Some b /\
     repliesTo 0xa1 tr = [inr tpl] /\
     writeInt32LE tpl b 0 = Return p /\
     issued tr
     = map stepRequest
         (bringUpSteps (setIndex (setIndex (setIndex p 4 0) 5 0) 6 8))) /\
  (failures tr = [] ->
   forall tpl, repliesTo 0xa1 tr = [inr tpl] ->
               (4 <= List.length tpl)%nat ->
               emitted "ready" tr = [[]]) /\
  (exists b,
      newBaud 38400 = Some b /\
      ((forall tpl, repliesTo 0xa1 tr = [inr tpl] ->
                    (4 <= List.length tpl)%nat) ->
       issued tr
       = firstn (S (List.length (successes tr)))
           (map stepRequest (bringUpSteps (lineBlockOf b tr))))) /\
  (forall tpl, repliesTo 0xa1 tr = [inr tpl] ->
               (List.length tpl < 4)%nat ->
               issued tr = map stepRequest (firstn 12 (bringUpSteps []))).
Proof.
  split; [lia|].
  apply (bringUp_order unit replyOk callOk tt (pl2303 1) inEp0 38400). lia.
Defined.

(** With three transfers completed and the fourth failed, four have been
    issued. *)
Example bringUp_progress_at_4 :
  let tr := trace replyFailing callOkN (bringUp (pl2303 1) 9600 inEp0) 3%nat in
  List.length (successes tr) = 3%nat /\
  issued tr
  = firstn 4 (map stepRequest (bringUpSteps (lineBlockOf 9600 tr))).
Proof. split; reflexivity. Qed.

Lemma bringUp_failure_witness :
  let tr := trace replyFailing callOkN (bringUp (pl2303 1) 9600 inEp0) 3%nat in
  In (TransportError (-1)) (failures tr) /\
  (exists before ev threw,
      tr = before
           ++ [ev; EvCall (EmitEvent "error" [VError (TransportError (-1))])
                          threw] /\
      failure ev = Some (TransportError (-1)) /\
      failures before = []) /\
  emitted "error" tr = [[VError (TransportError (-1))]] /\
  emitted "ready" tr = [].
Proof.
  split; [left; reflexivity|].
  apply (bringUp_failure nat replyFailing callOkN 3%nat (pl2303 1) inEp0 9600
           (TransportError (-1))).
  left. reflexivity.
Defined.

Lemma setBaudrate_above_limit_witness :
  115200 < 230400 /\
  setBaudrate (pl2303 1) 230400 = Fail AssertionError /\
  run replyOk callOk (setBaudrate (pl2303 1) 230400) tt
  = ([], Throw AssertionError) /\
  let tr := trace replyOk callOk (bringUp (pl2303 1) 230400 inEp0) tt in
  Forall (fun req => bmRequestType req <> 0xa1 /\ bmRequestType req <> 0x21)
         (issued tr) /\
  emitted "ready" tr = [] /\
  (failures tr = [] -> emitted "error" tr = [[VError AssertionError]]).
Proof.
  split; [lia|].
  apply (setBaudrate_above_limit unit replyOk callOk tt (pl2303 1) inEp0
           230400).
  lia.
Defined.

Lemma setBaudrate_line_block_witness :
  38400 <= 115200 /\
  List.length (repeat 0 7) = 7%nat /\
  replyOk tt (pl2303 1) (mkReq 0xa1 0x21 0 0 (Length 7))
  = (tt, inr (repeat 0 7)) /\
  exists b b0 b1 b2 b3 rest,
    newBaud 38400 = Some b /\
    trace replyOk callOk (setBaudrate (pl2303 1) 38400) tt
    = EvIssue (pl2303 1) (mkReq 0xa1 0x21 0 0 (Length 7))
      :: EvDone (inr (repeat 0 7))
      :: EvIssue (pl2303 1)
           (mkReq 0x21 0x20 0 0 (Data [b0; b1; b2; b3; 0; 0; 8]))
      :: rest /\
    (0 <= b0 < 256 /\ 0 <= b1 < 256 /\ 0 <= b2 < 256 /\ 0 <= b3 < 256) /\
    b0 + 256 * b1 + 65536 * b2 + 16777216 * b3 = b /\
    (38400 = 38400 -> [b0; b1; b2; b3] = [0; 150; 0; 0]).
Proof.
  split; [lia|]. split; [reflexivity|]. split; [reflexivity|].
  apply (setBaudrate_line_block unit replyOk callOk tt tt (pl2303 1) 38400
           (repeat 0 7)).
  - lia.
  - reflexivity.
  - reflexivity.
Defined.



Lemma send_not_buffer_witness :
  instanceofBuffer (VString "AT") = false /\
  run replyOk callOk
    (send (mkUsbSerial (pl2303 1) iface0 outEp0) (VString "AT")) tt
  = ([], Throw AssertionError).
Proof.
  split; [reflexivity|].
  apply (proj1 (send_not_buffer unit replyOk callOk tt
                  (mkUsbSerial (pl2303 1) iface0 outEp0) (VString "AT"))).
  reflexivity.
Defined.

(** C5, as stated, fails: [vendorWrite(2, 0x44)] carries no payload, so its
    payload is not the value 0x44. *)
Lemma vendorWrite_payload_not_value :
  ~ (exists req,
        issued (trace replyOk callOk (vendorWrite (pl2303 1) 2 0x44) tt)
        = [req] /\
        bmRequestType req = 0x40 /\
        bRequest req = 0x01 /\
        wValue req = 2 /\
        payloadIs (dataOrLength req) 0x44).
Proof.
  intros (req & Hreq & _ & _ & _ & Hpayload).
  injection Hreq as <-. simpl in Hpayload.
  destruct Hpayload as [Hvalue _]. discriminate Hvalue.
Qed.

Lemma send_buffer_witness :
  let this := mkUsbSerial (pl2303 3) iface0 outEp0 in
  outcome replyOk callOk
    (UsbSerial_new [hub; pl2303 2; pl2303 3] (mkOptions (Some 1) None)) tt
  = Return (this, awaiting (bringUp (pl2303 3) 9600 inEp0)) /\
  transferType (outEp this) = LIBUSB_TRANSFER_TYPE_BULK /\
  direction (outEp this) = "out"%string /\
  In (outEp this) (endpoints (iface this)).
Proof.
  intros this. split; [reflexivity|].
  apply (proj2 (send_buffer unit replyOk callOk tt this [0x41; 0x54])
           tt [hub; pl2303 2; pl2303 3] (mkOptions (Some 1) None)
           (awaiting (bringUp (pl2303 3) 9600 inEp0))).
  reflexivity.
Defined.

(** [send] of the two bytes of "AT". *)
Example send_AT :
  run replyOk callOk
    (send (mkUsbSerial (pl2303 1) iface0 outEp0) (VBuffer [0x41; 0x54])) tt
  = ([EvCall (Transfer outEp0 (VBuffer [0x41; 0x54])) None], Return tt).
Proof. reflexivity. Qed.

(** * Further properties of the driver *)

(** ** The negotiator as a quantizer *)

Lemma newBaud_spec (r : Z) :
  exists b,
    newBaud r = Some b /\
    In b SupportedBaudrates /\
    (forall e, In e SupportedBaudrates -> Z.abs (b - r) <= Z.abs (e - r)) /\
    (forall e, In e SupportedBaudrates ->
               Z.abs (e - r) = Z.abs (b - r) -> b <= e).
Proof.
  destruct (newBaud_first_min r) as (b & l1 & l2 & Hb & Hl & H1 & H2).
  rewrite Forall_forall in H1, H2.
  pose proof SupportedBaudrates_ascending as Hs. rewrite Hl in Hs.
  exists b. split; [exact Hb|]. split.
  { rewrite Hl. apply in_or_app. right. now left. }
  split; intros e He; rewrite Hl in He; apply in_app_or in He;
    destruct He as [He|[He|He]]; try (subst e; lia).
  - specialize (H1 e He). lia.
  - now apply H2.
  - specialize (H1 e He). lia.
  - pose proof (ascending_after l1 l2 b e Hs He). lia.
Qed.

(** Whatever is requested, the selected rate is a rate of the table; and
    for a request that passes the assertion it is at most 115200, so the
    rates above 115200 are never written to the device. *)
Theorem newBaud_within_limit (r : Z) :
  exists b,
    newBaud r = Some b /\
    In b SupportedBaudrates /\
    75 <= b <= 6000000 /\
    (r <= 115200 -> b <= 115200).
Proof.
  destruct (newBaud_spec r) as (b & Hb & Hin & Hmin & _).
  exists b. split; [exact Hb|]. split; [exact Hin|]. split.
  - clear Hmin Hb. simpl in Hin. lia.
  - intros Hr.
    assert (H : In 115200 SupportedBaudrates) by (simpl; tauto).
    specialize (Hmin 115200 H). lia.
Qed.

Lemma newBaud_within_limit_witness :
  exists b,
    newBaud 100000 = Some b /\
    In b SupportedBaudrates /\
    75 <= b <= 6000000 /\
    (100000 <= 115200 -> b <= 115200).
Proof. apply (newBaud_within_limit 100000). Defined.

(** A higher request never selects a lower rate. *)
Theorem newBaud_monotone (r1 r2 b1 b2 : Z) :
  r1 <= r2 -> newBaud r1 = Some b1 -> newBaud r2 = Some b2 -> b1 <= b2.
Proof.
  intros Hr Hb1 Hb2.
  destruct (newBaud_spec r1) as (b1' & Hb1' & Hin1 & Hmin1 & Htie1).
  destruct (newBaud_spec r2) as (b2' & Hb2' & Hin2 & Hmin2 & _).
  rewrite Hb1 in Hb1'. injection Hb1' as <-.
  rewrite Hb2 in Hb2'. injection Hb2' as <-.
  specialize (Hmin1 b2 Hin2). specialize (Htie1 b2 Hin2).
  specialize (Hmin2 b1 Hin1).
  destruct (Z.le_gt_cases b1 b2) as [|Hgt]; [assumption|].
  destruct (Z.eq_dec (Z.abs (b2 - r1)) (Z.abs (b1 - r1))) as [Heq|Hne].
  - specialize (Htie1 Heq). lia.
  - lia.
Qed.

Lemma newBaud_monotone_witness :
  100 <= 200 /\ newBaud 100 = Some 75 /\ newBaud 200 = Some 150 /\ 75 <= 150.
Proof.
  split; [lia|]. split; [reflexivity|]. split; [reflexivity|].
  apply (newBaud_monotone 100 200 75 150); [lia|reflexivity|reflexivity].
Defined.

(** The lowest rate is selected exactly for the requests up to 112: zero
    and negative requests are rounded up to 75. *)
Theorem newBaud_lowest (r : Z) : newBaud r = Some 75 <-> r <= 112.
Proof.
  destruct (newBaud_spec r) as (b & Hb & Hin & Hmin & _).
  assert (H75 : In 75 SupportedBaudrates) by (simpl; tauto).
  assert (H150 : In 150 SupportedBaudrates) by (simpl; tauto).
  pose proof (Hmin 75 H75). pose proof (Hmin 150 H150).
  rewrite Hb. split.
  - intros [= ->]. lia.
  - intros Hr. f_equal. clear Hmin Hb. simpl in Hin. lia.
Qed.

Lemma newBaud_lowest_witness :
  (newBaud (-9600) = Some 75 -> -9600 <= 112) /\
  (-9600 <= 112 -> newBaud (-9600) = Some 75).
Proof.
  split.
  - apply (proj1 (newBaud_lowest (-9600))).
  - apply (proj2 (newBaud_lowest (-9600))).
Defined.

Lemma last_cons (l : list Z) (a a' : Z) : last (a' :: l) a = last l a'.
Proof.
  revert a a'. induction l as [|x l IH]; intros a a'; [reflexivity|].
  change (last (a' :: x :: l) a) with (last (x :: l) a).
  now rewrite (IH a x), (IH a' x).
Qed.

Lemma doubling_bracket (l : list Z) (a r : Z) :
  0 <= a -> doubling a l -> a <= r <= last l a ->
  exists x y, In x (a :: l) /\ In y (a :: l) /\ x <= r <= y /\ y <= 2 * x.
Proof.
  revert a. induction l as [|a' l IH]; intros a Ha Hd Hr.
  - cbn [last] in Hr. exists a, a.
    split; [now left|]. split; [now left|]. lia.
  - destruct Hd as [Haa' Hd]. rewrite last_cons in Hr.
    destruct (Z.le_gt_cases r a') as [Hle|Hgt].
    + exists a, a'.
      split; [now left|]. split; [right; now left|]. lia.
    + destruct (IH a' ltac:(lia) Hd ltac:(lia)) as (x & y & Hx & Hy & Hxy).
      exists x, y.
      split; [now right|]. split; [now right|]. lia.
Qed.

(** Between the lowest and the highest rate of the table, the selected rate
    is off by at most a third of the requested one. *)
Theorem newBaud_error_bound (r b : Z) :
  75 <= r <= 6000000 -> newBaud r = Some b -> 3 * Z.abs (b - r) <= r.
Proof.
  intros Hr Hb.
  destruct (newBaud_spec r) as (b' & Hb' & _ & Hmin & _).
  rewrite Hb in Hb'. injection Hb' as <-.
  destruct (doubling_bracket (tl SupportedBaudrates) 75 r)
    as (x & y & Hx & Hy & Hxy & Hdbl).
  - lia.
  - simpl. repeat split; lia.
  - simpl. exact Hr.
  - pose proof (Hmin x Hx). pose proof (Hmin y Hy). lia.
Qed.

Lemma newBaud_error_bound_witness :
  75 <= 100000 <= 6000000 /\ newBaud 100000 = Some 115200 /\
  3 * Z.abs (115200 - 100000) <= 100000.
Proof.
  split; [lia|]. split; [reflexivity|].
  apply (newBaud_error_bound 100000 115200); [lia|reflexivity].
Defined.

(** ** The line configuration on a short or a long read *)

Lemma line_block_general (tpl : Buffer) (b : Z) :
  (4 <= List.length tpl)%nat -> 0 <= b < 0x80000000 ->
  exists p,
    writeInt32LE tpl b 0 = Return p /\
    setIndex (setIndex (setIndex p 4 0) 5 0) 6 8
    = firstn (List.length tpl)
        [ b mod 256; Z.shiftr b 8 mod 256; Z.shiftr b 16 mod 256;
          Z.shiftr b 24 mod 256; 0; 0; 8 ]
      ++ skipn 7 tpl.
Proof.
  intros Hlen Hb.
  destruct tpl as [|t0 [|t1 [|t2 [|t3 tpl]]]]; try (simpl in Hlen; lia).
  unfold writeInt32LE.
  destruct (Z.ltb_spec b (- 0x80000000)); [lia|].
  destruct (Z.ltb_spec 0x7fffffff b); [lia|].
  destruct (Z.ltb_spec (Z.of_nat (List.length (t0 :: t1 :: t2 :: t3 :: tpl)))
              (0 + 4)) as [Hlt|_].
  { simpl List.length in Hlt. lia. }
  destruct tpl as [|t4 [|t5 [|t6 tpl]]];
    simpl; rewrite ?firstn_nil; eexists; split; reflexivity.
Qed.

Lemma newBaud_range (r b : Z) : newBaud r = Some b -> 0 <= b < 0x80000000.
Proof.
  intros Hb. pose proof SupportedBaudrates_range as HR.
  rewrite Forall_forall in HR.
  specialize (HR b (newBaud_in_table r b Hb)). lia.
Qed.

Section Edges.
Variable World : Type.
Variable onControl : World -> Device -> ControlRequest -> World * (Err + Buffer).
Variable onCall : World -> Call -> World * option Err.

Ltac step :=
  match goal with
  | |- context [onControl ?w ?d ?r] =>
      destruct (onControl w d r) as [? [?|?]]; simpl
  | |- context [onCall ?w ?c] =>
      destruct (onCall w c) as [? [?|]]; simpl
  end.

(** [vendorRead] issues one device-to-host transfer of one byte (request
    type 0xc0, request 0x01) and resolves with the first byte of the reply,
    with [undefined] when the reply is empty; it is rejected with the error
    of the transfer. *)
Theorem vendorRead_result (w : World) (d : Device) (value index : Z) :
  let req := mkReq 0xc0 0x01 value index (Length 1) in
  let reply := snd (onControl w d req) in
  run onControl onCall (vendorRead d value index) w
  = ( [EvIssue d req; EvDone reply],
      match reply with
      | inl err => Throw err
      | inr buffer => Return (nth_error buffer 0)
      end ).
Proof.
  intros req reply. unfold vendorRead, reply, req. simpl.
  destruct (onControl w d (mkReq 192 1 value index (Length 1)))
    as [w' [e|b]]; reflexivity.
Qed.

(** When the device answers the read of the line configuration with fewer
    than four bytes, [setBaudrate] is rejected with a RangeError: nothing is
    written back, and flow control and the pipes are left as they were. *)
Theorem setBaudrate_short_read (w w' : World) (d : Device) (r : Z)
    (tpl : Buffer)
    (Hr : r <= 115200)
    (Hlen : (List.length tpl < 4)%nat)
    (Hread : onControl w d (mkReq 0xa1 0x21 0 0 (Length 7)) = (w', inr tpl)) :
  run onControl onCall (setBaudrate d r) w
  = ( [EvIssue d (mkReq 0xa1 0x21 0 0 (Length 7)); EvDone (inr tpl)],
      Throw RangeError ).
Proof.
  destruct (setBaudrate_cases d r) as [(_ & b & Hb & Hset)|(Hgt & _)]; [|lia].
  rewrite Hset. unfold setBaudrate_chain. simpl.
  change (mkReq 161 33 0 0 (Length 7)) with (mkReq 0xa1 0x21 0 0 (Length 7)).
  rewrite Hread. simpl.
  rewrite (writeInt32LE_short tpl b Hlen (newBaud_range r b Hb)).
  reflexivity.
Qed.

(** When the device answers with four bytes or more, the block written back
    is as long as the block read: the rate and the three parameters replace
    the bytes that exist among the first seven, and later bytes are kept.
    A read of four to six bytes so writes a block without the data-bits
    byte. *)
Theorem setBaudrate_block_length (w w' : World) (d : Device) (r : Z)
    (tpl : Buffer)
    (Hr : r <= 115200)
    (Hlen : (4 <= List.length tpl)%nat)
    (Hread : onControl w d (mkReq 0xa1 0x21 0 0 (Length 7)) = (w', inr tpl)) :
  exists b block rest,
    newBaud r = Some b /\
    trace onControl onCall (setBaudrate d r) w
    = EvIssue d (mkReq 0xa1 0x21 0 0 (Length 7))
      :: EvDone (inr tpl)
      :: EvIssue d (mkReq 0x21 0x20 0 0 (Data block))
      :: rest /\
    block = firstn (List.length tpl)
              [ b mod 256; Z.shiftr b 8 mod 256; Z.shiftr b 16 mod 256;
                Z.shiftr b 24 mod 256; 0; 0; 8 ]
            ++ skipn 7 tpl /\
    List.length block = List.length tpl.
Proof.
  destruct (setBaudrate_cases d r) as [(_ & b & Hb & Hset)|(Hgt & _)]; [|lia].
  destruct (line_block_general tpl b Hlen (newBaud_range r b Hb))
    as (p & Hp & Hblock).
  exists b. eexists. 
  rewrite Hset. unfold setBaudrate_chain. simpl then_.
  rewrite (trace_Ctl _ _ _ _ _ _ _ _ _ Hread). simpl. rewrite Hp. simpl.
  rewrite Hblock.
  match goal with
  | |- context [trace onControl onCall (Ctl d ?req ?k) w'] =>
      destruct (onControl w' d req) as [w'' reply] eqn:Hwrite;
      rewrite (trace_Ctl _ _ _ _ _ _ _ _ _ Hwrite)
  end.
  eexists. split; [exact Hb|]. split; [reflexivity|]. split; [reflexivity|].
  rewrite length_app, length_firstn, length_skipn. simpl List.length. lia.
Qed.
End Edges.

(** ** The constructor and the bring-up, step by step *)

Section Lifecycle.
Variable World : Type.
Variable onControl : World -> Device -> ControlRequest -> World * (Err + Buffer).
Variable onCall : World -> Call -> World * option Err.

Ltac step :=
  match goal with
  | |- context [onControl ?w ?d ?r] =>
      destruct (onControl w d r) as [? [?|?]]; simpl
  | |- context [onCall ?w ?c] =>
      destruct (onCall w c) as [? [?|]]; simpl
  end.

(** The port and the device descriptor are checked before anything is
    called on a device: a negative port is a TypeError, a device of class
    0x02 or with a control packet size other than 0x40 an assertion error,
    and in each case the device has not been opened. *)
Theorem UsbSerial_new_checks_before_open (w : World)
    (deviceList : list Device) (opts : Options) :
  let p := orDefault (port opts) 0 in
  let devices := findDevices deviceList 0x067b 0x2303 in
  (p < 0 ->
   run onControl onCall (UsbSerial_new deviceList opts) w
   = ([], Throw TypeError)) /\
  (forall d,
      index devices p = Some d ->
      bDeviceClass (deviceDescriptor d) = 0x02 \/
      bMaxPacketSize0 (deviceDescriptor d) <> 0x40 ->
      run onControl onCall (UsbSerial_new deviceList opts) w
      = ([], Throw AssertionError)).
Proof.
  intros p devices. split.
  - intros Hp. unfold UsbSerial_new. fold p devices.
    destruct (Z.ltb_spec p (Z.of_nat (List.length devices))); [|lia].
    unfold index. destruct (Z.ltb_spec p 0); [reflexivity|lia].
  - intros d Hidx Hbad. unfold UsbSerial_new. fold p devices.
    destruct (index_Some _ _ _ Hidx) as (_ & Hlen & _).
    destruct (Z.ltb_spec p (Z.of_nat (List.length devices))); [|lia].
    simpl. rewrite Hidx.
    destruct (Z.eqb_spec (bDeviceClass (deviceDescriptor d)) 0x02);
      simpl; [reflexivity|].
    destruct (Z.eqb_spec (bMaxPacketSize0 (deviceDescriptor d)) 0x40);
      simpl; [|reflexivity].
    destruct Hbad; contradiction.
Qed.

Lemma UsbSerial_new_run (w : World) (deviceList : list Device)
    (opts : Options) (this : UsbSerial) (chain : Js unit)
    (Hnew : outcome onControl onCall (UsbSerial_new deviceList opts) w
            = Return (this, chain)) :
  exists intEp inEp,
    findEp (iface this) LIBUSB_TRANSFER_TYPE_INTERRUPT "in" = Return intEp /\
    findEp (iface this) LIBUSB_TRANSFER_TYPE_BULK "in" = Return inEp /\
    trace onControl onCall (UsbSerial_new deviceList opts) w
    = [ EvCall (SetTimeout (device this) 100) None;
        EvCall (Open (device this)) None;
        EvCall (Claim (iface this)) None;
        EvCall (OnEvent intEp "data" "status") None;
        EvCall (OnEvent intEp "error" "error") None;
        EvCall (StartPoll intEp) None;
        EvCall (OnEvent inEp "data" "data") None;
        EvCall (OnEvent inEp "error" "error") None;
        EvCall (OnEvent (outEp this) "error" "error") None;
        EvIssue (device this) (mkReq 0xc0 0x01 0x8484 0 (Length 1)) ] /\
    chain
    = awaiting (bringUp (device this) (orDefault (baudRate opts) 9600) inEp).
Proof.
  revert Hnew. unfold outcome, trace, UsbSerial_new.
  destruct (orDefault (port opts) 0
            <? Z.of_nat (List.length (findDevices deviceList 0x067b 0x2303)));
    simpl; [|discriminate].
  destruct (index (findDevices deviceList 0x067b 0x2303)
                  (orDefault (port opts) 0)) as [dev|]; [|discriminate].
  destruct (bDeviceClass (deviceDescriptor dev) =? 0x02);
    simpl; [discriminate|].
  destruct (bMaxPacketSize0 (deviceDescriptor dev) =? 0x40);
    simpl; [|discriminate].
  do 2 (step; [discriminate|]).
  destruct (interfaces dev) as [|i [|i' l]] eqn:Hif; simpl; try discriminate.
  step; [discriminate|].
  destruct (findEp i LIBUSB_TRANSFER_TYPE_INTERRUPT "in") as [intEp|] eqn:Hint;
    simpl; [|discriminate].
  do 3 (step; [discriminate|]).
  destruct (findEp i LIBUSB_TRANSFER_TYPE_BULK "in") as [inEp|] eqn:Hin;
    simpl; [|discriminate].
  do 2 (step; [discriminate|]).
  destruct (findEp i LIBUSB_TRANSFER_TYPE_BULK "out") as [oEp|] eqn:Hout;
    simpl; [|discriminate].
  step; [discriminate|].
  intros [= <- <-]. simpl.
  exists intEp, inEp. repeat split; assumption.
Qed.

(** A constructor that returns has made exactly these calls, all of which
    returned: the timeout, [open], [claim], the two handlers of the
    interrupt endpoint and its [startPoll], the two handlers of the bulk-in
    endpoint and the error handler of the bulk-out endpoint; and it has
    issued the first control transfer of the bring-up, the [vendorRead] of
    0x8484, whose completion is still to come.  Status polling is thus
    running when the constructor returns, bulk-in polling is not.  What
    runs after the constructor has returned, put behind the transfer it
    issued, is the bring-up chain for [baudRate || 9600]. *)
Theorem UsbSerial_new_trace (w : World) (deviceList : list Device)
    (opts : Options) (this : UsbSerial) (chain : Js unit)
    (Hnew : outcome onControl onCall (UsbSerial_new deviceList opts) w
            = Return (this, chain)) :
  exists intEp inEp,
    findEp (iface this) LIBUSB_TRANSFER_TYPE_INTERRUPT "in" = Return intEp /\
    findEp (iface this) LIBUSB_TRANSFER_TYPE_BULK "in" = Return inEp /\
    trace onControl onCall (UsbSerial_new deviceList opts) w
    = [ EvCall (SetTimeout (device this) 100) None;
        EvCall (Open (device this)) None;
        EvCall (Claim (iface this)) None;
        EvCall (OnEvent intEp "data" "status") None;
        EvCall (OnEvent intEp "error" "error") None;
        EvCall (StartPoll intEp) None;
        EvCall (OnEvent inEp "data" "data") None;
        EvCall (OnEvent inEp "error" "error") None;
        EvCall (OnEvent (outEp this) "error" "error") None;
        EvIssue (device this) (mkReq 0xc0 0x01 0x8484 0 (Length 1)) ] /\
    forall w',
      EvIssue (device this) (mkReq 0xc0 0x01 0x8484 0 (Length 1))
      :: trace onControl onCall chain w'
      = trace onControl onCall
          (bringUp (device this) (orDefault (baudRate opts) 9600) inEp) w'.
Proof.
  destruct (UsbSerial_new_run w deviceList opts this chain Hnew)
    as (intEp & inEp & Hint & Hin & Htrace & ->).
  exists intEp, inEp. repeat split; try assumption.
  intros w'.
  destruct (bringUp_head (device this) (orDefault (baudRate opts) 9600) inEp)
    as [k ->].
  apply trace_awaiting.
Qed.

Lemma findEp_unique (i : Interface) (type : Z) (dir : string) (e : Endpoint) :
  findEp i type dir = Return e ->
  filter (fun e => (transferType e =? type) && String.eqb (direction e) dir)
         (endpoints i)
  = [e].
Proof.
  unfold findEp.
  destruct (filter _ (endpoints i)) as [|e' [|e'' l]]; try discriminate.
  now intros [= <-].
Qed.

(** A session exists only on an interface with exactly one interrupt-in,
    one bulk-in and one bulk-out endpoint, the last being the session's
    [outEp]: with none or several of a kind the constructor throws. *)
Theorem UsbSerial_new_endpoints (w : World) (deviceList : list Device)
    (opts : Options) (this : UsbSerial) (chain : Js unit)
    (Hnew : outcome onControl onCall (UsbSerial_new deviceList opts) w
            = Return (this, chain)) :
  let only type dir :=
    filter (fun e => (transferType e =? type) && String.eqb (direction e) dir)
           (endpoints (iface this)) in
  (exists intEp, only LIBUSB_TRANSFER_TYPE_INTERRUPT "in"%string = [intEp]) /\
  (exists inEp, only LIBUSB_TRANSFER_TYPE_BULK "in"%string = [inEp]) /\
  only LIBUSB_TRANSFER_TYPE_BULK "out"%string = [outEp this].
Proof.
  intros only.
  destruct (UsbSerial_new_run w deviceList opts this chain Hnew)
    as (intEp & inEp & Hint & Hin & _).
  destruct (UsbSerial_new_returns _ onControl onCall w deviceList opts this
              chain Hnew) as (_ & _ & _ & _ & _ & Hout & _).
  split; [exists intEp; exact (findEp_unique _ _ _ _ Hint)|].
  split; [exists inEp; exact (findEp_unique _ _ _ _ Hin)|].
  exact (findEp_unique _ _ _ _ Hout).
Qed.

(** On an interface without exactly one bulk-in endpoint the constructor
    throws late: when the calls it makes return, the device is open, the
    interface claimed and status polling started by the time the assertion
    fails, and nothing undoes them. *)
Theorem UsbSerial_new_missing_bulk (w : World) (deviceList : list Device)
    (opts : Options) (d : Device) (i : Interface) (intEp : Endpoint)
    (Hcalls : forall w c, snd (onCall w c) = None)
    (Hidx : index (findDevices deviceList 0x067b 0x2303)
                  (orDefault (port opts) 0) = Some d)
    (Hclass : bDeviceClass (deviceDescriptor d) <> 0x02)
    (Hsize : bMaxPacketSize0 (deviceDescriptor d) = 0x40)
    (Hif : interfaces d = [i])
    (Hint : findEp i LIBUSB_TRANSFER_TYPE_INTERRUPT "in" = Return intEp)
    (Hbulk : forall e, findEp i LIBUSB_TRANSFER_TYPE_BULK "in" <> Return e) :
  run onControl onCall (UsbSerial_new deviceList opts) w
  = ( [ EvCall (SetTimeout d 100) None;
        EvCall (Open d) None;
        EvCall (Claim i) None;
        EvCall (OnEvent intEp "data" "status") None;
        EvCall (OnEvent intEp "error" "error") None;
        EvCall (StartPoll intEp) None ],
      Throw AssertionError ).
Proof.
  unfold UsbSerial_new.
  destruct (index_Some _ _ _ Hidx) as (_ & Hlen & _).
  destruct (Z.ltb_spec (orDefault (port opts) 0)
              (Z.of_nat (List.length (findDevices deviceList 0x067b 0x2303))));
    [|lia].
  simpl. rewrite Hidx.
  destruct (Z.eqb_spec (bDeviceClass (deviceDescriptor d)) 0x02);
    [contradiction|].
  destruct (Z.eqb_spec (bMaxPacketSize0 (deviceDescriptor d)) 0x40);
    [|contradiction].
  rewrite Hif. simpl. rewrite Hint. simpl.
  assert (Hfind : findEp i LIBUSB_TRANSFER_TYPE_BULK "in"
                  = Throw AssertionError).
  { generalize (Hbulk). unfold findEp.
    destruct (filter _ (endpoints i)) as [|e' [|e'' l]]; try reflexivity.
    intros Hnot. now destruct (Hnot e'). }
  rewrite Hfind.
  repeat match goal with
         | |- context [onCall ?w' ?c] =>
             let Hc := fresh "Hc" in
             pose proof (Hcalls w' c) as Hc;
             destruct (onCall w' c) as [? ?]; simpl in Hc; subst; simpl
         end.
  reflexivity.
Qed.

(** A device that passes the descriptor checks but does not have exactly
    one interface makes the constructor throw after [open]: unless the
    timeout or [open] itself throws, the device has been opened, no
    interface is claimed, and the error is the assertion error. *)
Theorem UsbSerial_new_interface_count (w : World) (deviceList : list Device)
    (opts : Options) (d : Device)
    (Hidx : index (findDevices deviceList 0x067b 0x2303)
                  (orDefault (port opts) 0) = Some d)
    (Hclass : bDeviceClass (deviceDescriptor d) <> 0x02)
    (Hsize : bMaxPacketSize0 (deviceDescriptor d) = 0x40)
    (Hcount : List.length (interfaces d) <> 1%nat) :
  let result := run onControl onCall (UsbSerial_new deviceList opts) w in
  (exists e, result = ([EvCall (SetTimeout d 100) (Some e)], Throw e)) \/
  (exists e, result = ([EvCall (SetTimeout d 100) None;
                        EvCall (Open d) (Some e)], Throw e)) \/
  result = ([EvCall (SetTimeout d 100) None; EvCall (Open d) None],
            Throw AssertionError).
Proof.
  unfold UsbSerial_new.
  destruct (index_Some _ _ _ Hidx) as (_ & Hlen & _).
  destruct (Z.ltb_spec (orDefault (port opts) 0)
              (Z.of_nat (List.length (findDevices deviceList 0x067b 0x2303))));
    [|lia].
  simpl. rewrite Hidx.
  destruct (Z.eqb_spec (bDeviceClass (deviceDescriptor d)) 0x02);
    [contradiction|].
  destruct (Z.eqb_spec (bMaxPacketSize0 (deviceDescriptor d)) 0x40);
    [|contradiction].
  simpl. step; [left; eexists; reflexivity|].
  step; [right; left; eexists; reflexivity|].
  right; right.
  destruct (interfaces d) as [|i [|i' l]]; simpl in *;
    [reflexivity|contradiction|reflexivity].
Qed.


(** Every run of the bring-up ends in a notification: [error] alone when it
    does not get as far as [ready], [ready] alone when all goes well, and
    both only when a listener of [ready] throws, whose exception is then
    what [error] reports.  Neither is emitted twice. *)
Theorem bringUp_notifies (w : World) (d : Device) (inEp : Endpoint) (r : Z) :
  let tr := trace onControl onCall (bringUp d r inEp) w in
  (emitted "ready" tr = [] /\ exists e, emitted "error" tr = [[VError e]]) \/
  (emitted "ready" tr = [[]] /\ emitted "error" tr = []) \/
  (emitted "ready" tr = [[]] /\
   exists e, In (EvCall (EmitEvent "ready" []) (Some e)) tr /\
             emitted "error" tr = [[VError e]]).
Proof.
  unfold trace, bringUp.
  destruct (setBaudrate_cases d r) as [(_ & b & Hb & ->)|(_ & ->)];
    unfold setBaudrate_chain; simpl; repeat step.
  all: try (destruct (writeInt32LE _ b 0) eqn:Hw; simpl; repeat step).
  all: first
    [ left; split; [reflexivity|eexists; reflexivity]
    | right; left; split; reflexivity
    | right; right; split; [reflexivity|];
      eexists; split; [|reflexivity];
      repeat first [left; reflexivity | right] ].
Qed.

(** The promise of the chain is rejected only when the [emit] of [error]
    itself throws, as it does without a listener for [error]: the last
    event of such a run is that [emit]. *)
Theorem bringUp_rejected (w : World) (d : Device) (inEp : Endpoint) (r : Z)
    (e : Err) :
  outcome onControl onCall (bringUp d r inEp) w = Throw e ->
  exists before args,
    trace onControl onCall (bringUp d r inEp) w
    = before ++ [EvCall (EmitEvent "error" args) (Some e)].
Proof.
  unfold outcome, trace, bringUp.
  destruct (setBaudrate_cases d r) as [(_ & b & Hb & ->)|(_ & ->)];
    unfold setBaudrate_chain; simpl; repeat step.
  all: try (destruct (writeInt32LE _ b 0) eqn:Hw; simpl; repeat step).
  all: intros Hthrow; try discriminate Hthrow; injection Hthrow as <-.
  all: match goal with
       | |- exists before args, ?tr = _ => exists (removelast tr)
       end; simpl; eexists; reflexivity.
Qed.

(** Polling of the bulk-in endpoint starts only at the end of a bring-up in
    which all sixteen control transfers were issued and none of them
    failed; no other endpoint is polled by the chain. *)
Theorem bringUp_polls_last (w : World) (d : Device) (inEp : Endpoint) (r : Z) :
  let tr := trace onControl onCall (bringUp d r inEp) w in
  polled tr <> [] ->
  polled tr = [inEp] /\
  (exists block, issued tr = map stepRequest (bringUpSteps block)) /\
  (forall e, ~ In (EvDone (inl e)) tr).
Proof.
  unfold trace, bringUp.
  destruct (setBaudrate_cases d r) as [(_ & b & Hb & ->)|(_ & ->)];
    unfold setBaudrate_chain; simpl; repeat step.
  all: try (destruct (writeInt32LE _ b 0) eqn:Hw; simpl; repeat step).
  all: intros Hpolled; try (exfalso; apply Hpolled; reflexivity).
  all: split; [reflexivity|]; split; [eexists; reflexivity|].
  all: intros e' Hin; simpl in Hin;
    repeat (destruct Hin as [Hin|Hin]; [discriminate Hin|]); exact Hin.
Qed.

(** A rate above 115200 is found out late: when no transfer fails, the
    eleven register operations before [setBaudrate] have all been issued
    when the assertion fails, and nothing after them. *)
Theorem bringUp_above_limit_issues_eleven (w : World) (d : Device)
    (inEp : Endpoint) (r : Z) :
  115200 < r ->
  let tr := trace onControl onCall (bringUp d r inEp) w in
  failures tr = [] ->
  issued tr = map stepRequest (firstn 11 (bringUpSteps [])) /\
  polled tr = [] /\
  emitted "error" tr = [[VError AssertionError]].
Proof.
  intros Hr.
  destruct (setBaudrate_cases d r) as [(Hle & _)|(_ & Hset)]; [lia|].
  unfold trace, bringUp. rewrite Hset. simpl. repeat step.
  all: intros Hnone; try discriminate Hnone; repeat split.
Qed.
End Lifecycle.

Lemma UsbSerial_new_checks_before_open_witness :
  (-1 < 0 ->
   run replyOk callOk
     (UsbSerial_new [pl2303 2] (mkOptions (Some (-1)) None)) tt
   = ([], Throw TypeError)) /\
  -1 < 0.
Proof.
  split; [|lia].
  apply (proj1 (UsbSerial_new_checks_before_open unit replyOk callOk tt
                  [pl2303 2] (mkOptions (Some (-1)) None))).
Defined.

Lemma UsbSerial_new_trace_witness :
  let this := mkUsbSerial (pl2303 2) iface0 outEp0 in
  let chain := awaiting (bringUp (pl2303 2) 9600 inEp0) in
  outcome replyOk callOk
    (UsbSerial_new [hub; pl2303 2] (mkOptions None (Some 0))) tt
  = Return (this, chain) /\
  exists intEp inEp,
    findEp (iface this) LIBUSB_TRANSFER_TYPE_INTERRUPT "in" = Return intEp /\
    findEp (iface this) LIBUSB_TRANSFER_TYPE_BULK "in" = Return inEp /\
    trace replyOk callOk
      (UsbSerial_new [hub; pl2303 2] (mkOptions None (Some 0))) tt
    = [ EvCall (SetTimeout (device this) 100) None;
        EvCall (Open (device this)) None;
        EvCall (Claim (iface this)) None;
        EvCall (OnEvent intEp "data" "status") None;
        EvCall (OnEvent intEp "error" "error") None;
        EvCall (StartPoll intEp) None;
        EvCall (OnEvent inEp "data" "data") None;
        EvCall (OnEvent inEp "error" "error") None;
        EvCall (OnEvent (outEp this) "error" "error") None;
        EvIssue (device this) (mkReq 0xc0 0x01 0x8484 0 (Length 1)) ] /\
    forall w',
      EvIssue (device this) (mkReq 0xc0 0x01 0x8484 0 (Length 1))
      :: trace replyOk callOk chain w'
      = trace replyOk callOk
          (bringUp (device this) (orDefault (Some 0) 9600) inEp) w'.
Proof.
  intros this chain. split; [reflexivity|].
  apply (UsbSerial_new_trace unit replyOk callOk tt [hub; pl2303 2]
           (mkOptions None (Some 0)) this chain).
  reflexivity.
Defined.

Lemma UsbSerial_new_interface_count_witness :
  let d := mkDevice 4 (mkDescriptor 0x067b 0x2303 0 0x40) [iface0; iface0] in
  let result := run replyOk callOk (UsbSerial_new [d] (mkOptions None None)) tt in
  (exists e, result = ([EvCall (SetTimeout d 100) (Some e)], Throw e)) \/
  (exists e, result = ([EvCall (SetTimeout d 100) None;
                        EvCall (Open d) (Some e)], Throw e)) \/
  result = ([EvCall (SetTimeout d 100) None; EvCall (Open d) None],
            Throw AssertionError).
Proof.
  intros d.
  apply (UsbSerial_new_interface_count unit replyOk callOk tt [d]
           (mkOptions None None) d).
  - reflexivity.
  - discriminate.
  - reflexivity.
  - discriminate.
Defined.

Lemma bringUp_rejected_witness :
  outcome replyFailing callNoErrorListener (bringUp (pl2303 1) 9600 inEp0) 0%nat
  = Throw (TransportError (-1)) /\
  exists before args,
    trace replyFailing callNoErrorListener (bringUp (pl2303 1) 9600 inEp0) 0%nat
    = before ++ [EvCall (EmitEvent "error" args) (Some (TransportError (-1)))].
Proof.
  split; [reflexivity|].
  apply (bringUp_rejected nat replyFailing callNoErrorListener
           0%nat (pl2303 1) inEp0 9600 (TransportError (-1))).
  reflexivity.
Defined.

Lemma setBaudrate_short_read_witness :
  9600 <= 115200 /\
  (List.length (repeat 0 3) < 4)%nat /\
  replyBytes 3 tt (pl2303 1) (mkReq 0xa1 0x21 0 0 (Length 7))
  = (tt, inr (repeat 0 3)) /\
  run (replyBytes 3) callOk (setBaudrate (pl2303 1) 9600) tt
  = ( [EvIssue (pl2303 1) (mkReq 0xa1 0x21 0 0 (Length 7));
       EvDone (inr (repeat 0 3))],
      Throw RangeError ).
Proof.
  split; [lia|]. split; [simpl; lia|]. split; [reflexivity|].
  apply (setBaudrate_short_read unit (replyBytes 3) callOk tt tt (pl2303 1)
           9600 (repeat 0 3)).
  - lia.
  - simpl. lia.
  - reflexivity.
Defined.

Lemma setBaudrate_block_length_witness :
  9600 <= 115200 /\
  (4 <= List.length (repeat 0 5))%nat /\
  replyBytes 5 tt (pl2303 1) (mkReq 0xa1 0x21 0 0 (Length 7))
  = (tt, inr (repeat 0 5)) /\
  exists b block rest,
    newBaud 9600 = Some b /\
    trace (replyBytes 5) callOk (setBaudrate (pl2303 1) 9600) tt
    = EvIssue (pl2303 1) (mkReq 0xa1 0x21 0 0 (Length 7))
      :: EvDone (inr (repeat 0 5))
      :: EvIssue (pl2303 1) (mkReq 0x21 0x20 0 0 (Data block))
      :: rest /\
    block = firstn (List.length (repeat 0 5))
              [ b mod 256; Z.shiftr b 8 mod 256; Z.shiftr b 16 mod 256;
                Z.shiftr b 24 mod 256; 0; 0; 8 ]
            ++ skipn 7 (repeat 0 5) /\
    List.length block = List.length (repeat 0 5).
Proof.
  split; [lia|]. split; [simpl; lia|]. split; [reflexivity|].
  apply (setBaudrate_block_length unit (replyBytes 5) callOk tt tt (pl2303 1)
           9600 (repeat 0 5)).
  - lia.
  - simpl. lia.
  - reflexivity.
Defined.

(** A read of five bytes: the block written for 9600 has five bytes. *)
Example setBaudrate_five_bytes :
  issued (trace (replyBytes 5) callOk (setBaudrate (pl2303 1) 9600) tt)
  = [ mkReq 0xa1 0x21 0 0 (Length 7);
      mkReq 0x21 0x20 0 0 (Data [0x80; 0x25; 0; 0; 0]);
      mkReq 0x40 0x01 0 0 (Data []);
      mkReq 0x40 0x01 8 0 (Data []);
      mkReq 0x40 0x01 9 0 (Data []) ].
Proof. reflexivity. Qed.

Lemma bringUp_polls_last_witness :
  let tr := trace replyOk callOk (bringUp (pl2303 1) 9600 inEp0) tt in
  polled tr <> [] /\
  polled tr = [inEp0] /\
  (exists block, issued tr = map stepRequest (bringUpSteps block)) /\
  (forall e, ~ In (EvDone (inl e)) tr).
Proof.
  intros tr. split; [discriminate|].
  apply (bringUp_polls_last unit replyOk callOk tt (pl2303 1) inEp0 9600).
  discriminate.
Defined.

Lemma bringUp_above_limit_issues_eleven_witness :
  let tr := trace replyOk callOk (bringUp (pl2303 1) 230400 inEp0) tt in
  115200 < 230400 /\
  failures tr = [] /\
  issued tr = map stepRequest (firstn 11 (bringUpSteps [])) /\
  polled tr = [] /\
  emitted "error" tr = [[VError AssertionError]].
Proof.
  intros tr. split; [lia|]. split; [reflexivity|].
  apply (bringUp_above_limit_issues_eleven unit replyOk callOk tt (pl2303 1)
           inEp0 230400); [lia|reflexivity].
Defined.

(** ** Teardown *)

Section Closing.
Variable World : Type.
Variable onTeardown : World -> TeardownCall -> World * option Err.
Variable onCompletion : World -> Interface -> World * option (option Err).

Ltac answer :=
  match goal with
  | |- context [onTeardown ?w ?c] =>
      destruct (onTeardown w c) as [? [?|]]; simpl
  | |- context [onCompletion ?w ?i] =>
      destruct (onCompletion w i) as [? [[?|]|]]; simpl
  end.

(** Membership in an explicit list. *)
Ltac member := solve [repeat first [left; reflexivity | right]].

(** [close] makes its calls in one order: [removeAllListeners], [release]
    of the session's interface with the flag set, [close] of the device,
    the callback with no argument.  The first is always made; each further
    one is made when the one before it has returned, [close] of the device
    waiting in addition for the release to complete.  A call that throws
    is the last call made, and without a completed release the device is
    not closed. *)
Theorem close_order (w : World) (this : UsbSerial) (cb : option nat) :
  let tr := runClose onTeardown onCompletion (close this cb) w in
  (exists rest,
      [ RemoveAllListeners; Release (iface this) true;
        CloseDevice (device this) ]
      ++ match cb with Some f => [InvokeCallback f []] | None => [] end
      = tdCalls tr ++ rest) /\
  (exists rest, tdCalls tr = RemoveAllListeners :: rest) /\
  (In (TdCalled RemoveAllListeners None) tr ->
   In (Release (iface this) true) (tdCalls tr)) /\
  (forall err,
      In (TdCompleted (iface this) err) tr ->
      In (CloseDevice (device this)) (tdCalls tr)) /\
  (forall f,
      cb = Some f ->
      In (TdCalled (CloseDevice (device this)) None) tr ->
      In (InvokeCallback f []) (tdCalls tr)) /\
  (forall c e,
      In (TdCalled c (Some e)) tr ->
      exists before, tdCalls tr = before ++ [c]) /\
  ((forall err, ~ In (TdCompleted (iface this) err) tr) ->
   ~ In (CloseDevice (device this)) (tdCalls tr)).
Proof.
  unfold runClose, close. simpl. repeat answer.
  all: destruct cb as [f|]; simpl; repeat answer.
  all: split; [eexists; reflexivity|].
  all: split; [eexists; reflexivity|].
  all: split;
    [ intros Hin; first [ member
                        | exfalso;
                          repeat (destruct Hin as [Hin|Hin];
                                  [discriminate Hin|]); exact Hin ] |].
  all: split;
    [ intros err Hin; first [ member
                            | exfalso;
                              repeat (destruct Hin as [Hin|Hin];
                                      [discriminate Hin|]); exact Hin ] |].
  all: split;
    [ intros f' Hcb Hin; first [ injection Hcb as <-; member
                               | discriminate Hcb
                               | exfalso;
                                 repeat (destruct Hin as [Hin|Hin];
                                         [discriminate Hin|]); exact Hin ] |].
  all: split.
  all: try (intros c e' Hin;
            repeat (destruct Hin as [Hin|Hin];
                    [try discriminate Hin|]);
            try contradiction;
            injection Hin as <- <-;
            match goal with
            | |- exists before, ?l = _ => exists (removelast l)
            end; reflexivity).
  all: intros Hnever Hin;
    first [ repeat (destruct Hin as [Hin|Hin]; [discriminate Hin|]);
            exact Hin
          | eapply Hnever; member ].
Qed.

(** The callback given to [close] is invoked only in this run: the two
    synchronous calls returned, [close] returned [undefined], the release
    completed, with an error or without, and [close] of the device
    returned.  The callback gets no argument, so an error of the release
    never reaches it. *)
Theorem close_callback (w : World) (this : UsbSerial) (cb : option nat)
    (f : nat) (args : list JsValue) (r : option Err) :
  let tr := runClose onTeardown onCompletion (close this cb) w in
  In (TdCalled (InvokeCallback f args) r) tr ->
  cb = Some f /\ args = [] /\
  exists err,
    tr = [ TdCalled RemoveAllListeners None;
           TdCalled (Release (iface this) true) None;
           TdReturned (Return tt);
           TdCompleted (iface this) err;
           TdCalled (CloseDevice (device this)) None;
           TdCalled (InvokeCallback f []) r ]
         ++ match r with Some e => [TdUncaught e] | None => [] end.
Proof.
  unfold runClose, close. simpl. repeat answer.
  all: destruct cb as [f'|]; simpl; repeat answer.
  all: intros Hin;
    repeat (destruct Hin as [Hin|Hin]; [try discriminate Hin|]);
    try contradiction.
  all: injection Hin as <- <- <-.
  all: split; [reflexivity|]; split; [reflexivity|]; eexists; reflexivity.
Qed.

(** Once the release has completed, the device is closed whether or not
    the release reported an error.  If closing throws, the callback is not
    invoked and the exception is caught by nobody; if it returns, the
    callback is invoked, or, when [close] was given none, a TypeError is
    thrown from the completion. *)
Theorem close_after_release (w : World) (this : UsbSerial) (cb : option nat)
    (err : option Err) :
  let tr := runClose onTeardown onCompletion (close this cb) w in
  In (TdCompleted (iface this) err) tr ->
  (exists e,
      In (TdCalled (CloseDevice (device this)) (Some e)) tr /\
      In (TdUncaught e) tr /\
      tdCalls tr = [ RemoveAllListeners; Release (iface this) true;
                     CloseDevice (device this) ]) \/
  (In (TdCalled (CloseDevice (device this)) None) tr /\
   match cb with
   | Some f => exists r, In (TdCalled (InvokeCallback f []) r) tr
   | None => In (TdUncaught TypeError) tr
   end).
Proof.
  unfold runClose, close. simpl. repeat answer.
  all: destruct cb as [f'|]; simpl; repeat answer.
  all: intros Hin;
    repeat (destruct Hin as [Hin|Hin]; [try discriminate Hin|]);
    try contradiction.
  all: first
    [ left; eexists; split; [|split; [|reflexivity]]; member
    | right; split; [member|]; first [ eexists; member | member ] ].
Qed.
End Closing.

Lemma close_callback_witness :
  let this := mkUsbSerial (pl2303 1) iface0 outEp0 in
  let tr := runClose teardownOk (completesWith (Some (TransportError (-5))))
              (close this (Some 7%nat)) tt in
  In (TdCalled (InvokeCallback 7 []) None) tr /\
  Some 7%nat = Some 7%nat /\ @nil JsValue = [] /\
  exists err,
    tr = [ TdCalled RemoveAllListeners None;
           TdCalled (Release (iface this) true) None;
           TdReturned (Return tt);
           TdCompleted (iface this) err;
           TdCalled (CloseDevice (device this)) None;
           TdCalled (InvokeCallback 7 []) None ]
         ++ [].
Proof.
  intros this tr.
  assert (Hin : In (TdCalled (InvokeCallback 7 []) None) tr).
  { simpl. do 5 right. left. reflexivity. }
  split; [exact Hin|].
  exact (close_callback unit teardownOk
           (completesWith (Some (TransportError (-5)))) tt this
           (Some 7%nat) 7%nat [] None Hin).
Defined.

Lemma close_after_release_witness :
  let this := mkUsbSerial (pl2303 1) iface0 outEp0 in
  let err := Some (TransportError (-5)) in
  let tr := runClose teardownOk (completesWith err) (close this None) tt in
  In (TdCompleted (iface this) err) tr /\
  ((exists e,
       In (TdCalled (CloseDevice (device this)) (Some e)) tr /\
       In (TdUncaught e) tr /\
       tdCalls tr = [ RemoveAllListeners; Release (iface this) true;
                      CloseDevice (device this) ]) \/
   (In (TdCalled (CloseDevice (device this)) None) tr /\
    In (TdUncaught TypeError) tr)).
Proof.
  intros this err tr.
  assert (Hin : In (TdCompleted (iface this) err) tr).
  { simpl. do 3 right. left. reflexivity. }
  split; [exact Hin|].
  exact (close_after_release unit teardownOk (completesWith err) tt this
           None err Hin).
Defined.

Lemma UsbSerial_new_endpoints_witness :
  let this := mkUsbSerial (pl2303 2) iface0 outEp0 in
  let only type dir :=
    filter (fun e => (transferType e =? type) && String.eqb (direction e) dir)
           (endpoints (iface this)) in
  outcome replyOk callOk (UsbSerial_new [pl2303 2] (mkOptions None None)) tt
  = Return (this, awaiting (bringUp (pl2303 2) 9600 inEp0)) /\
  (exists intEp, only LIBUSB_TRANSFER_TYPE_INTERRUPT "in"%string = [intEp]) /\
  (exists inEp, only LIBUSB_TRANSFER_TYPE_BULK "in"%string = [inEp]) /\
  only LIBUSB_TRANSFER_TYPE_BULK "out"%string = [outEp this].
Proof.
  intros this only. split; [reflexivity|].
  apply (UsbSerial_new_endpoints unit replyOk callOk tt [pl2303 2]
           (mkOptions None None) this
           (awaiting (bringUp (pl2303 2) 9600 inEp0))).
  reflexivity.
Defined.

Lemma UsbSerial_new_missing_bulk_witness :
  let i := mkInterface 0 [intEp0; outEp0] in
  let d := mkDevice 5 (mkDescriptor 0x067b 0x2303 0 0x40) [i] in
  (forall w c, snd (callOk w c) = None) /\
  run replyOk callOk (UsbSerial_new [d] (mkOptions None None)) tt
  = ( [ EvCall (SetTimeout d 100) None;
        EvCall (Open d) None;
        EvCall (Claim i) None;
        EvCall (OnEvent intEp0 "data" "status") None;
        EvCall (OnEvent intEp0 "error" "error") None;
        EvCall (StartPoll intEp0) None ],
      Throw AssertionError ).
Proof.
  intros i d. split; [reflexivity|].
  apply (UsbSerial_new_missing_bulk unit replyOk callOk tt [d]
           (mkOptions None None) d i intEp0).
  - reflexivity.
  - reflexivity.
  - discriminate.
  - reflexivity.
  - reflexivity.
  - reflexivity.
  - discriminate.
Defined.

Lemma close_order_witness :
  let this := mkUsbSerial (pl2303 1) iface0 outEp0 in
  let tr := runClose teardownOk (completesWith None)
              (close this (Some 7%nat)) tt in
  In (TdCalled (CloseDevice (device this)) None) tr /\
  In (InvokeCallback 7 []) (tdCalls tr) /\
  tdCalls tr
  = [ RemoveAllListeners; Release (iface this) true;
      CloseDevice (device this); InvokeCallback 7 [] ].
Proof.
  intros this tr.
  assert (Hin : In (TdCalled (CloseDevice (device this)) None) tr).
  { simpl. do 4 right. left. reflexivity. }
  split; [exact Hin|]. split; [|reflexivity].
  exact (proj1 (proj2 (proj2 (proj2 (proj2
           (close_order unit teardownOk (completesWith None) tt this
              (Some 7%nat))))))
           7%nat eq_refl Hin).
Defined.
